(** * A two-layer drawing surface: the canvas components and their handlers

    The development embeds the React canvas component (pointer handlers,
    text overlay, clipboard paste), its older sibling and the page-level
    clear handler.  A handler is a function from the values its closure
    reads (props, component state, the event) to the list of effects it
    performs, in program order: calls on the two 2D contexts and state
    setters.  The effects are then interpreted on a pixel model of the two
    canvases.

    JavaScript numbers are idealised as real numbers: IEEE rounding, NaN,
    infinities and signed zeros are not modelled, and a statement that
    depends on a quotient assumes its divisor is not zero. *)

From Stdlib Require Import Reals Lra Lia List ZArith NArith String Ascii Bool.
Import ListNotations.
Local Open Scope R_scope.

(** ** JavaScript values *)

(** A JavaScript string: its UTF-16 code units. *)
Definition JSString := list N.

(** ECMAScript WhiteSpace and LineTerminator code points, the ones
    [String.prototype.trim] strips. *)
Definition isWhiteSpace (c : N) : bool :=
  (existsb (N.eqb c)
     [0x0009; 0x000A; 0x000B; 0x000C; 0x000D; 0x0020; 0x00A0; 0x1680;
      0x2028; 0x2029; 0x202F; 0x205F; 0x3000; 0xFEFF]
   || (N.leb 0x2000 c && N.leb c 0x200A))%N%bool.

Fixpoint trimStart (s : JSString) : JSString :=
  match s with
  | c :: s' => if isWhiteSpace c then trimStart s' else s
  | [] => []
  end.

Definition trimEnd (s : JSString) : JSString := rev (trimStart (rev s)).

Definition trim (s : JSString) : JSString := trimEnd (trimStart s).

(** Truthiness of a string: the empty string is the only falsy one. *)
Definition truthy (s : JSString) : bool :=
  match s with [] => false | _ :: _ => true end.

Definition Rleb (a b : R) : bool := if Rle_dec a b then true else false.
Definition Rgtb (a b : R) : bool := if Rgt_dec a b then true else false.

(** [Math.atan2(y, x)] on the reals. *)
Definition atan2 (y x : R) : R :=
  if Rlt_dec 0 x then atan (y / x)
  else if Rlt_dec x 0 then
         if Rle_dec 0 y then atan (y / x) + PI else atan (y / x) - PI
  else if Rlt_dec 0 y then PI / 2
  else if Rlt_dec y 0 then - (PI / 2)
  else 0.

Record Point := mkPoint { px : R; py : R }.

(** ** The 2D context interface *)

Module Canvas2D.

Inductive CanvasId := MainCanvas | PreviewCanvas.

(** An image decoded from the clipboard. *)
Record Image := { img_id : nat; img_width : R; img_height : R }.

(** Options handed to the roughjs generator. *)
Record RoughOptions := {
  stroke : string;
  strokeWidth : R;
  rough_roughness : R;
  fill : option string
}.

(** What a roughjs generator call was asked to produce. *)
Inductive Drawable :=
| RoughRectangle (x y w h : R) (o : RoughOptions)
| RoughCircle (x y diameter : R) (o : RoughOptions)
| RoughLine (x1 y1 x2 y2 : R) (o : RoughOptions)
| RoughLinearPath (points : list (R * R)) (o : RoughOptions).

(** The CSS font shorthand [`${size}px family`]. *)
Record Font := { font_px : R; font_family : string }.

Inductive PathCmd :=
| MoveTo (x y : R)
| LineTo (x y : R)
| Rect (x y w h : R)
| Arc (x y radius startAngle endAngle : R)
| ClosePath.

(** The calls the components make on a 2D context.  [DrawCanvas src dx dy]
    is [drawImage(canvas, dx, dy)] with a canvas as source and integer
    offsets, [DrawImage] is [drawImage(img, dx, dy, dw, dh)], [RoughDraw] is
    [rough.canvas(previewCanvas).draw(drawable)], which draws through the
    preview context. *)
Inductive Call :=
| BeginPath
| Path (c : PathCmd)
| Stroke
| Fill
| SetFillStyle (c : string)
| SetFont (f : Font)
| SetTextBaseline (b : string)
| FillText (t : JSString) (x y : R)
| ClearRect (x y w h : R)
| DrawCanvas (src : CanvasId) (dx dy : Z)
| DrawImage (img : Image) (dx dy dw dh : R)
| Save
| Translate (x y : R)
| Rotate (angle : R)
| Restore
| RoughDraw (d : Drawable).

Coercion Path : PathCmd >-> Call.

End Canvas2D.
Import Canvas2D.

(** ** Effects of a handler *)

Inductive Effect :=
| Main (c : Call)
| Preview (c : Call)
| PreventDefault
| Toast (success : bool) (title : string)
| SetIsDrawing (b : bool)
| SetStartPos (p : option Point)
| SetTextInputValue (v : JSString)
| SetTextInputPosition (p : option Point).

Inductive Event :=
| MouseEvent (clientX clientY : R)
| TouchEvent (clientX clientY : R).

Definition isTouch (e : Event) : bool :=
  match e with TouchEvent _ _ => true | MouseEvent _ _ => false end.

(** [getBoundingClientRect()] of the main canvas, as far as it is read. *)
Record DOMRect := { left : R; top : R }.

(** [if ('touches' in e) e.preventDefault()] *)
Definition preventScroll (e : Event) : list Effect :=
  if isTouch e then [PreventDefault] else [].

(** [canvas] is [canvasRef.current]: [None] while the element is not
    mounted. *)
Definition getCoordinates (canvas : option DOMRect) (e : Event) : Point :=
  match canvas with
  | None => mkPoint 0 0
  | Some rect =>
      match e with
      | TouchEvent clientX clientY
      | MouseEvent clientX clientY =>
          mkPoint (clientX - left rect) (clientY - top rect)
      end
  end.

(** ** The canvas component (with sketchy rendering, arrows and text) *)

Module Canvas.

Inductive DrawMode := pen | rectangle | circle | line | arrow | text | move.

Record Props := {
  width : R;
  height : R;
  color : string;
  lineWidth : R;
  drawMode : DrawMode;
  roughness : R;
  enableRough : bool
}.

(** Component state.  [ctx] and [previewCtx] say whether the state holds a
    context ([true]) or [null]; [roughGenerator] whether the ref holds a
    generator. *)
Record State := {
  isDrawing : bool;
  ctx : bool;
  startPos : option Point;
  previewCtx : bool;
  textInputValue : JSString;
  textInputPosition : option Point;
  roughGenerator : bool
}.

Definition defaultProps : Props :=
  {| width := 800; height := 600; color := "#000000"; lineWidth := 5;
     drawMode := pen; roughness := 1; enableRough := true |}.

(** The state of the first render: the initial values of the [useState]
    and [useRef] hooks.  Both contexts are [null]; the mount effect, which
    runs after this render, asks for them to be set in the next one. *)
Definition firstRender : State :=
  {| isDrawing := false; ctx := false; startPos := None;
     previewCtx := false; textInputValue := [];
     textInputPosition := None; roughGenerator := false |}.

(** State setters, applied in the order the handler issued them. *)
Definition reduce (s : State) (e : Effect) : State :=
  match e with
  | SetIsDrawing b =>
      {| isDrawing := b; ctx := ctx s; startPos := startPos s;
         previewCtx := previewCtx s; textInputValue := textInputValue s;
         textInputPosition := textInputPosition s;
         roughGenerator := roughGenerator s |}
  | SetStartPos p =>
      {| isDrawing := isDrawing s; ctx := ctx s; startPos := p;
         previewCtx := previewCtx s; textInputValue := textInputValue s;
         textInputPosition := textInputPosition s;
         roughGenerator := roughGenerator s |}
  | SetTextInputValue v =>
      {| isDrawing := isDrawing s; ctx := ctx s; startPos := startPos s;
         previewCtx := previewCtx s; textInputValue := v;
         textInputPosition := textInputPosition s;
         roughGenerator := roughGenerator s |}
  | SetTextInputPosition p =>
      {| isDrawing := isDrawing s; ctx := ctx s; startPos := startPos s;
         previewCtx := previewCtx s; textInputValue := textInputValue s;
         textInputPosition := p;
         roughGenerator := roughGenerator s |}
  | _ => s
  end.

Definition update (s : State) (effs : list Effect) : State :=
  fold_left reduce effs s.

Definition drawArrow (p : Props) (fromX fromY toX toY : R) : list Call :=
  let headLength := Rmin (lineWidth p * 5) 20 in
  let angle := atan2 (toY - fromY) (toX - fromX) in
  [ BeginPath;
    Path (MoveTo fromX fromY);
    Path (LineTo toX toY);
    Stroke;
    BeginPath;
    Path (MoveTo toX toY);
    Path (LineTo (toX - headLength * cos (angle - PI / 6))
                 (toY - headLength * sin (angle - PI / 6)));
    Path (LineTo (toX - headLength * cos (angle + PI / 6))
                 (toY - headLength * sin (angle + PI / 6)));
    Path ClosePath;
    SetFillStyle (color p);
    Fill ].

Definition textFont (p : Props) : Font :=
  {| font_px := Rmax (lineWidth p * 3) 14; font_family := "sans-serif" |}.

Definition applyTextToCanvas (p : Props) (s : State) : list Effect :=
  match textInputPosition s with
  | Some pos =>
      if negb (ctx s) || negb (truthy (trim (textInputValue s))) then []
      else
        [ Main (SetFont (textFont p));
          Main (SetFillStyle (color p));
          Main (SetTextBaseline "top");
          Main (FillText (textInputValue s) (px pos) (py pos));
          SetTextInputValue [];
          SetTextInputPosition None ]
  | None => []
  end.

Definition startDrawing (p : Props) (s : State)
    (canvas : option DOMRect) (e : Event) : list Effect :=
  if negb (ctx s) || negb (previewCtx s) then []
  else
    preventScroll e ++
    let pos := getCoordinates canvas e in
    match drawMode p with
    | text =>
        (match textInputPosition s with
         | Some _ => applyTextToCanvas p s
         | None => []
         end) ++
        [ SetTextInputPosition (Some pos) ]
    | mode =>
        [ SetStartPos (Some pos) ] ++
        (match mode with
         | pen => [ Main BeginPath; Main (MoveTo (px pos) (py pos)) ]
         | _ => [ Preview (ClearRect 0 0 (width p) (height p)) ]
         end) ++
        [ SetIsDrawing true ]
    end.

Definition roughOptions (p : Props) (fillColor : option string)
    : RoughOptions :=
  {| stroke := color p; strokeWidth := lineWidth p;
     rough_roughness := roughness p; fill := fillColor |}.

(** The drawable assigned to [roughShape] in the sketchy branch. *)
Definition roughShape (p : Props) (sp pos : Point) : option Drawable :=
  match drawMode p with
  | rectangle =>
      Some (RoughRectangle (px sp) (py sp) (px pos - px sp) (py pos - py sp)
              (roughOptions p (Some "transparent"%string)))
  | circle =>
      let radius := sqrt ((px pos - px sp) ^ 2 + (py pos - py sp) ^ 2) in
      Some (RoughCircle (px sp) (py sp) (radius * 2)
              (roughOptions p (Some "transparent"%string)))
  | line | arrow =>
      Some (RoughLine (px sp) (py sp) (px pos) (py pos)
              (roughOptions p None))
  | _ => None
  end.

(** The arrowhead of the sketchy branch, drawn in the frame translated to
    the current point and rotated to the line's angle. *)
Definition roughArrowHead (p : Props) (sp pos : Point) : list Effect :=
  let headLength := Rmin (lineWidth p * 5) 20 in
  let angle := atan2 (py pos - py sp) (px pos - px sp) in
  [ Preview Save;
    Preview (Translate (px pos) (py pos));
    Preview (Rotate angle);
    Preview (RoughDraw
      (RoughLinearPath
         [ (0, 0);
           (- headLength, - headLength / 2);
           (- headLength, headLength / 2);
           (0, 0) ]
         (roughOptions p (Some (color p)))));
    Preview Restore ].

Definition draw (p : Props) (s : State)
    (canvas : option DOMRect) (e : Event) : list Effect :=
  if negb (isDrawing s) || negb (ctx s) || negb (previewCtx s) then []
  else
    match startPos s with
    | None => []
    | Some sp =>
        preventScroll e ++
        let pos := getCoordinates canvas e in
        match drawMode p with
        | pen => [ Main (LineTo (px pos) (py pos)); Main Stroke ]
        | mode =>
            Preview (ClearRect 0 0 (width p) (height p)) ::
            if enableRough p && roughGenerator s then
              (match mode with
               | arrow => roughArrowHead p sp pos
               | _ => []
               end) ++
              (match roughShape p sp pos with
               | Some shape =>
                   match mode with
                   | arrow => []
                   | _ => [ Preview (RoughDraw shape) ]
                   end
               | None => []
               end)
            else
              Preview BeginPath ::
              match mode with
              | rectangle =>
                  [ Preview (Rect (px sp) (py sp)
                               (px pos - px sp) (py pos - py sp));
                    Preview Stroke ]
              | circle =>
                  let radius :=
                    sqrt ((px pos - px sp) ^ 2 + (py pos - py sp) ^ 2) in
                  [ Preview (Arc (px sp) (py sp) radius 0 (2 * PI));
                    Preview Stroke ]
              | line =>
                  [ Preview (MoveTo (px sp) (py sp));
                    Preview (LineTo (px pos) (py pos));
                    Preview Stroke ]
              | arrow =>
                  map Preview
                    (drawArrow p (px sp) (py sp) (px pos) (py pos))
              | _ => []
              end
        end
    end.

Definition stopDrawing (p : Props) (s : State) : list Effect :=
  if negb (isDrawing s) || negb (ctx s) || negb (previewCtx s) then []
  else
    match startPos s with
    | None => []
    | Some _ =>
        (match drawMode p with
         | pen => [ Main ClosePath ]
         | _ =>
             [ Main (DrawCanvas PreviewCanvas 0 0);
               Preview (ClearRect 0 0 (width p) (height p)) ]
         end) ++
        [ SetIsDrawing false; SetStartPos None ]
    end.

Record KeyboardEvent := { key : string; shiftKey : bool }.

Definition handleTextInputKeyDown (p : Props) (s : State)
    (e : KeyboardEvent) : list Effect :=
  if String.eqb (key e) "Enter" && negb (shiftKey e) then
    PreventDefault :: applyTextToCanvas p s
  else if String.eqb (key e) "Escape" then
    [ PreventDefault; SetTextInputValue []; SetTextInputPosition None ]
  else [].

(** The textarea's [onBlur] is [applyTextToCanvas] itself. *)
Definition onBlur (p : Props) (s : State) : list Effect :=
  applyTextToCanvas p s.

(** The textarea's [onChange]. *)
Definition onChange (value : JSString) : list Effect :=
  [ SetTextInputValue value ].

(** Where and how large the [img.onload] callback of [handlePaste] draws
    the image.  The numbers are real numbers: the differences, quotients
    and products below are exact, where the code rounds each of them to a
    double. *)
Record Placement := {
  place_x : R;
  place_y : R;
  drawWidth : R;
  drawHeight : R
}.

Definition pastePlacement (p : Props) (img : Image) : Placement :=
  let x := Rmax 0 ((width p - img_width img) / 2) in
  let y := Rmax 0 ((height p - img_height img) / 2) in
  let drawWidth := img_width img in
  let drawHeight := img_height img in
  let '(drawWidth, drawHeight) :=
    if Rgtb drawWidth (width p - 20) then
      let scale := (width p - 20) / drawWidth in
      (drawWidth * scale, drawHeight * scale)
    else (drawWidth, drawHeight) in
  let '(drawWidth, drawHeight) :=
    if Rgtb drawHeight (height p - 20) then
      let scale := (height p - 20) / drawHeight in
      (drawWidth * scale, drawHeight * scale)
    else (drawWidth, drawHeight) in
  {| place_x := x; place_y := y;
     drawWidth := drawWidth; drawHeight := drawHeight |}.

(** The [img.onload] callback of [handlePaste], run once the file read
    from the clipboard has been decoded into [img].  The callback is
    created inside [handlePaste], behind its guard
    [!ctx || !canvasRef.current]: [p] and [s] are the props and the state
    of the render whose [handlePaste] it is, whose [ctx], [width] and
    [height] it closes over.  A [handlePaste] that returned at the guard
    created no callback, so there is nothing to run. *)
Definition handlePaste_onload (p : Props) (s : State)
    (canvasMounted : bool) (img : Image) : list Effect :=
  if negb (ctx s) || negb canvasMounted then []
  else
    let pl := pastePlacement p img in
    [ Main (DrawImage img (place_x pl) (place_y pl)
              (drawWidth pl) (drawHeight pl));
      Toast true "Image pasted to canvas" ].

Inductive Pointer :=
| PointerDown (canvas : option DOMRect) (e : Event)
| PointerMove (canvas : option DOMRect) (e : Event)
| PointerUp.

(** Wiring of the preview canvas: onMouseDown/onTouchStart, onMouseMove/
    onTouchMove, onMouseUp/onMouseLeave/onTouchEnd. *)
Definition handle (p : Props) (s : State) (ev : Pointer) : list Effect :=
  match ev with
  | PointerDown canvas e => startDrawing p s canvas e
  | PointerMove canvas e => draw p s canvas e
  | PointerUp => stopDrawing p s
  end.

Definition isShapeTool (m : DrawMode) : bool :=
  match m with
  | rectangle | circle | line | arrow => true
  | _ => false
  end.

End Canvas.

(** ** The older canvas component (pen, rectangle, circle, line) *)

Module OldCanvas.

Inductive DrawMode := pen | rectangle | circle | line.

Record Props := {
  width : R;
  height : R;
  color : string;
  lineWidth : R;
  drawMode : DrawMode
}.

Record State := {
  isDrawing : bool;
  ctx : bool;
  startPos : option Point;
  previewCtx : bool
}.

Definition reduce (s : State) (e : Effect) : State :=
  match e with
  | SetIsDrawing b =>
      {| isDrawing := b; ctx := ctx s; startPos := startPos s;
         previewCtx := previewCtx s |}
  | SetStartPos p =>
      {| isDrawing := isDrawing s; ctx := ctx s; startPos := p;
         previewCtx := previewCtx s |}
  | _ => s
  end.

Definition startDrawing (p : Props) (s : State)
    (canvas : option DOMRect) (e : Event) : list Effect :=
  if negb (ctx s) || negb (previewCtx s) then []
  else
    preventScroll e ++
    let pos := getCoordinates canvas e in
    [ SetStartPos (Some pos) ] ++
    (match drawMode p with
     | pen => [ Main BeginPath; Main (MoveTo (px pos) (py pos)) ]
     | _ => [ Preview (ClearRect 0 0 (width p) (height p)) ]
     end) ++
    [ SetIsDrawing true ].

Definition draw (p : Props) (s : State)
    (canvas : option DOMRect) (e : Event) : list Effect :=
  if negb (isDrawing s) || negb (ctx s) || negb (previewCtx s) then []
  else
    match startPos s with
    | None => []
    | Some sp =>
        preventScroll e ++
        let pos := getCoordinates canvas e in
        match drawMode p with
        | pen => [ Main (LineTo (px pos) (py pos)); Main Stroke ]
        | mode =>
            [ Preview (ClearRect 0 0 (width p) (height p));
              Preview BeginPath ] ++
            (match mode with
             | rectangle =>
                 [ Preview (Rect (px sp) (py sp)
                              (px pos - px sp) (py pos - py sp)) ]
             | circle =>
                 let radius :=
                   sqrt ((px pos - px sp) ^ 2 + (py pos - py sp) ^ 2) in
                 [ Preview (Arc (px sp) (py sp) radius 0 (2 * PI)) ]
             | line =>
                 [ Preview (MoveTo (px sp) (py sp));
                   Preview (LineTo (px pos) (py pos)) ]
             | pen => []
             end) ++
            [ Preview Stroke ]
        end
    end.

Definition stopDrawing (p : Props) (s : State) : list Effect :=
  if negb (isDrawing s) || negb (ctx s) || negb (previewCtx s) then []
  else
    match startPos s with
    | None => []
    | Some _ =>
        (match drawMode p with
         | pen => [ Main ClosePath ]
         | _ =>
             [ Main (DrawCanvas PreviewCanvas 0 0);
               Preview (ClearRect 0 0 (width p) (height p)) ]
         end) ++
        [ SetIsDrawing false; SetStartPos None ]
    end.

End OldCanvas.

(** ** The page: clearing the canvas *)

Module Home.

(** [canvasRef.current] as [handleClear] reads it; [context2d] says whether
    [getContext("2d")] returns a context. *)
Record CanvasElement := {
  canvas_width : R;
  canvas_height : R;
  context2d : bool
}.

(** [confirmed] is the answer of the [confirm(...)] dialog. *)
Definition handleClear (canvas : option CanvasElement) (confirmed : bool)
    : list Effect :=
  match canvas with
  | None => []
  | Some c =>
      if confirmed then
        if context2d c then
          [ Main (ClearRect 0 0 (canvas_width c) (canvas_height c));
            Toast true "Canvas cleared" ]
        else []
      else []
  end.

End Home.

(** ** A pixel model of the two canvases *)

Module Raster.

(** A pixel is transparent ([None]) or carries a colour; partial coverage
    (anti-aliasing, partial alpha) is not modelled. *)
Definition Pixel := option string.

Definition Bitmap := Z -> Z -> Pixel.

Definition blank : Bitmap := fun _ _ => None.

(** Source-over compositing of one pixel. *)
Definition over (src dst : Pixel) : Pixel :=
  match src with
  | Some c => Some c
  | None => dst
  end.

Definition paint (src dst : Bitmap) : Bitmap :=
  fun i j => over (src i j) (dst i j).

Inductive XfOp :=
| XTranslate (x y : R)
| XRotate (angle : R).

(** The current transformation, as the operations applied since the
    identity. *)
Definition Transform := list XfOp.

Record DrawState := {
  strokeStyle : string;
  ctxLineWidth : R;
  lineCap : string;
  lineJoin : string;
  fillStyle : string;
  font : Font;
  textBaseline : string;
  transform : Transform
}.

Record Ctx := {
  bitmap : Bitmap;
  path : list (Transform * PathCmd);
  state : DrawState;
  saved : list DrawState
}.

(** The two canvases, and how many roughjs drawables have been drawn on
    them so far.  roughjs picks fresh random offsets at every generator
    call, so two sketches of the same request need not look alike; the
    count tells them apart. *)
Record World := { main : Ctx; preview : Ctx; sketches : nat }.

(** Pixel (i, j) is the unit square with corners (i, j) and (i+1, j+1);
    a rectangle covers it when it contains the whole square. *)
Definition covers (x y w h : R) (i j : Z) : bool :=
  Rleb (Rmin x (x + w)) (IZR i) && Rleb (IZR i + 1) (Rmax x (x + w)) &&
  Rleb (Rmin y (y + h)) (IZR j) && Rleb (IZR j + 1) (Rmax y (y + h)).

(** The pixels of a canvas element whose width and height attributes are
    [w] and [h]. *)
Definition in_canvas (w h : R) (i j : Z) : Prop :=
  0 <= IZR i /\ IZR i + 1 <= w /\ 0 <= IZR j /\ IZR j + 1 <= h.

(** What the browser decides: which pixels a stroke, a fill, a text or an
    image produces, and clearing and blitting under a transformation other
    than the identity; and what roughjs and its random source decide:
    which pixels the [n]-th sketch drawn produces for the drawable it was
    asked for.  Every rasterizer is one possible outcome. *)
Class Rasterizer := {
  stroke_px : string -> R -> string -> string ->
              list (Transform * PathCmd) -> Bitmap;
  fill_px : string -> list (Transform * PathCmd) -> Bitmap;
  text_px : Font -> string -> string -> Transform ->
            JSString -> R -> R -> Bitmap;
  image_px : Transform -> Image -> R -> R -> R -> R -> Bitmap;
  rough_px : nat -> Transform -> Drawable -> Bitmap;
  clear_xf : Transform -> R -> R -> R -> R -> Z -> Z -> bool;
  blit_xf : Transform -> Bitmap -> Z -> Z -> Bitmap
}.

Definition set_bitmap (b : Bitmap) (k : Ctx) : Ctx :=
  {| bitmap := b; path := path k; state := state k; saved := saved k |}.

Definition set_path (p : list (Transform * PathCmd)) (k : Ctx) : Ctx :=
  {| bitmap := bitmap k; path := p; state := state k; saved := saved k |}.

Definition set_state (d : DrawState) (k : Ctx) : Ctx :=
  {| bitmap := bitmap k; path := path k; state := d; saved := saved k |}.

Definition set_transform (t : Transform) (d : DrawState) : DrawState :=
  {| strokeStyle := strokeStyle d; ctxLineWidth := ctxLineWidth d;
     lineCap := lineCap d; lineJoin := lineJoin d;
     fillStyle := fillStyle d; font := font d;
     textBaseline := textBaseline d; transform := t |}.

Section Exec.

Context {rz : Rasterizer}.

(** One call on a 2D context; [canvases] gives the bitmaps a
    [drawImage(canvas, ...)] can read, [n] is the number of sketches drawn
    before this call.  Under the identity transformation
    [clearRect] makes the pixels it covers transparent and leaves the
    others, and [drawImage] of a canvas composites it pixel by pixel,
    shifted by the offset. *)
Definition exec_call (canvases : CanvasId -> Bitmap) (n : nat) (c : Call)
    (k : Ctx) : Ctx :=
  let d := state k in
  match c with
  | BeginPath => set_path [] k
  | Path seg => set_path (path k ++ [(transform d, seg)]) k
  | Stroke =>
      set_bitmap
        (paint (stroke_px (strokeStyle d) (ctxLineWidth d)
                  (lineCap d) (lineJoin d) (path k))
               (bitmap k)) k
  | Fill => set_bitmap (paint (fill_px (fillStyle d) (path k)) (bitmap k)) k
  | SetFillStyle col =>
      set_state
        {| strokeStyle := strokeStyle d; ctxLineWidth := ctxLineWidth d;
           lineCap := lineCap d; lineJoin := lineJoin d;
           fillStyle := col; font := font d;
           textBaseline := textBaseline d; transform := transform d |} k
  | SetFont f =>
      set_state
        {| strokeStyle := strokeStyle d; ctxLineWidth := ctxLineWidth d;
           lineCap := lineCap d; lineJoin := lineJoin d;
           fillStyle := fillStyle d; font := f;
           textBaseline := textBaseline d; transform := transform d |} k
  | SetTextBaseline b =>
      set_state
        {| strokeStyle := strokeStyle d; ctxLineWidth := ctxLineWidth d;
           lineCap := lineCap d; lineJoin := lineJoin d;
           fillStyle := fillStyle d; font := font d;
           textBaseline := b; transform := transform d |} k
  | FillText t x y =>
      set_bitmap
        (paint (text_px (font d) (fillStyle d) (textBaseline d)
                  (transform d) t x y)
               (bitmap k)) k
  | ClearRect x y w h =>
      let cleared :=
        match transform d with
        | [] => covers x y w h
        | t => clear_xf t x y w h
        end in
      set_bitmap (fun i j => if cleared i j then None else bitmap k i j) k
  | DrawCanvas src dx dy =>
      let shifted :=
        match transform d with
        | [] => fun i j => canvases src (i - dx)%Z (j - dy)%Z
        | t => blit_xf t (canvases src) dx dy
        end in
      set_bitmap (paint shifted (bitmap k)) k
  | DrawImage img dx dy dw dh =>
      set_bitmap
        (paint (image_px (transform d) img dx dy dw dh) (bitmap k)) k
  | Save =>
      {| bitmap := bitmap k; path := path k; state := d;
         saved := d :: saved k |}
  | Translate x y =>
      set_state (set_transform (transform d ++ [XTranslate x y]) d) k
  | Rotate a => set_state (set_transform (transform d ++ [XRotate a]) d) k
  | Restore =>
      match saved k with
      | d' :: rest =>
          {| bitmap := bitmap k; path := path k; state := d';
             saved := rest |}
      | [] => k
      end
  | RoughDraw dr =>
      set_bitmap (paint (rough_px n (transform d) dr) (bitmap k)) k
  end.

Definition canvas_bitmap (w : World) (id : CanvasId) : Bitmap :=
  match id with
  | MainCanvas => bitmap (main w)
  | PreviewCanvas => bitmap (preview w)
  end.

(** A call that draws a sketch. *)
Definition sketched (c : Call) : nat :=
  match c with
  | RoughDraw _ => 1
  | _ => 0
  end.

Definition exec_effect (w : World) (e : Effect) : World :=
  match e with
  | Main c =>
      {| main := exec_call (canvas_bitmap w) (sketches w) c (main w);
         preview := preview w;
         sketches := sketches w + sketched c |}
  | Preview c =>
      {| main := main w;
         preview := exec_call (canvas_bitmap w) (sketches w) c (preview w);
         sketches := sketches w + sketched c |}
  | _ => w
  end.

Definition run (effs : list Effect) (w : World) : World :=
  fold_left exec_effect effs w.

(** A configuration of the canvas component: its state and the two
    canvases. *)
Definition Config : Type := Canvas.State * World.

Definition perform (effs : list Effect) (cfg : Config) : Config :=
  (Canvas.update (fst cfg) effs, run effs (snd cfg)).

(** One pointer event, and a sequence of them, under fixed props. *)
Definition step (p : Canvas.Props) (cfg : Config) (ev : Canvas.Pointer)
    : Config :=
  perform (Canvas.handle p (fst cfg) ev) cfg.

Definition steps (p : Canvas.Props) (evs : list Canvas.Pointer)
    (cfg : Config) : Config :=
  fold_left (step p) evs cfg.

End Exec.

(** A rasterizer for running the model: every primitive marks the pixel
    (0, 0) with its colour, images and roughjs drawables with a fixed
    one. *)
Definition dot (c : string) : Bitmap :=
  fun i j => if (Z.eqb i 0 && Z.eqb j 0)%bool then Some c else None.

Definition dotRasterizer : Rasterizer :=
  {| stroke_px := fun c _ _ _ _ => dot c;
     fill_px := fun c _ => dot c;
     text_px := fun _ c _ _ _ _ _ => dot c;
     image_px := fun _ _ _ _ _ _ => dot "image";
     rough_px := fun _ _ _ => dot "rough";
     clear_xf := fun _ _ _ _ _ _ _ => false;
     blit_xf := fun _ b _ _ => b |}.

Definition defaultState : DrawState :=
  {| strokeStyle := "#000000"; ctxLineWidth := 1; lineCap := "butt";
     lineJoin := "miter"; fillStyle := "#000000";
     font := {| font_px := 10; font_family := "sans-serif" |};
     textBaseline := "alphabetic"; transform := [] |}.

Definition freshCtx : Ctx :=
  {| bitmap := blank; path := []; state := defaultState; saved := [] |}.

Definition freshWorld : World :=
  {| main := freshCtx; preview := freshCtx; sketches := 0 |}.

End Raster.

(** ** Geometry used to state the properties *)



Definition distance (a b : R * R) : R :=
  sqrt ((fst b - fst a) ^ 2 + (snd b - snd a) ^ 2).

(** Where a point given in the coordinates of a transformed context lies
    on the canvas: [translate] and [rotate] compose on the right of the
    current transformation, so the last one applies to the point first. *)
Definition applyOp (o : Raster.XfOp) (q : R * R) : R * R :=
  match o with
  | Raster.XTranslate x y => (fst q + x, snd q + y)
  | Raster.XRotate a =>
      (fst q * cos a - snd q * sin a, fst q * sin a + snd q * cos a)
  end.

Definition toCanvas (t : Raster.Transform) (q : R * R) : R * R :=
  fold_right applyOp q t.


(** The component of the newer version that corresponds to one of the
    older version. *)
Definition sharedMode (m : OldCanvas.DrawMode) : Canvas.DrawMode :=
  match m with
  | OldCanvas.pen => Canvas.pen
  | OldCanvas.rectangle => Canvas.rectangle
  | OldCanvas.circle => Canvas.circle
  | OldCanvas.line => Canvas.line
  end.

Definition sharedProps (p : OldCanvas.Props) (roughness : R)
    (enableRough : bool) : Canvas.Props :=
  {| Canvas.width := OldCanvas.width p;
     Canvas.height := OldCanvas.height p;
     Canvas.color := OldCanvas.color p;
     Canvas.lineWidth := OldCanvas.lineWidth p;
     Canvas.drawMode := sharedMode (OldCanvas.drawMode p);
     Canvas.roughness := roughness;
     Canvas.enableRough := enableRough |}.

Definition sharedState (s : OldCanvas.State) (value : JSString)
    (position : option Point) (generator : bool) : Canvas.State :=
  {| Canvas.isDrawing := OldCanvas.isDrawing s;
     Canvas.ctx := OldCanvas.ctx s;
     Canvas.startPos := OldCanvas.startPos s;
     Canvas.previewCtx := OldCanvas.previewCtx s;
     Canvas.textInputValue := value;
     Canvas.textInputPosition := position;
     Canvas.roughGenerator := generator |}.

Definition asMoves (ms : list (option DOMRect * Event))
    : list Canvas.Pointer :=
  map (fun m => Canvas.PointerMove (fst m) (snd m)) ms.

(** The tools whose gesture goes through the preview layer: all but the
    pen (drawn on the main canvas) and text (no drawing session). *)
Definition usesPreview (m : Canvas.DrawMode) : bool :=
  match m with
  | Canvas.pen | Canvas.text => false
  | _ => true
  end.

(** What a stroke on a context depends on, besides the path. *)
(** Two renders give the canvases the same attributes and the contexts the
    same style: no canvas is reset and no style is copied between them. *)
Definition sameSurface (p q : Canvas.Props) : Prop :=
  Canvas.width p = Canvas.width q /\ Canvas.height p = Canvas.height q /\
  Canvas.color p = Canvas.color q /\
  Canvas.lineWidth p = Canvas.lineWidth q.

Definition sameBrush (k1 k2 : Raster.Ctx) : Prop :=
  Raster.strokeStyle (Raster.state k1) = Raster.strokeStyle (Raster.state k2)
  /\ Raster.ctxLineWidth (Raster.state k1)
     = Raster.ctxLineWidth (Raster.state k2)
  /\ Raster.lineCap (Raster.state k1) = Raster.lineCap (Raster.state k2)
  /\ Raster.lineJoin (Raster.state k1) = Raster.lineJoin (Raster.state k2)
  /\ Raster.transform (Raster.state k1) = []
  /\ Raster.transform (Raster.state k2) = [].

(** ** Inputs on which the model is run *)

(** The component after mounting: both contexts and the generator are
    there, nothing is in progress. *)
Definition mountedState : Canvas.State :=
  {| Canvas.isDrawing := false; Canvas.ctx := true;
     Canvas.startPos := None; Canvas.previewCtx := true;
     Canvas.textInputValue := []; Canvas.textInputPosition := None;
     Canvas.roughGenerator := true |}.

Definition withText (s : Canvas.State) (value : JSString)
    (position : option Point) : Canvas.State :=
  {| Canvas.isDrawing := Canvas.isDrawing s; Canvas.ctx := Canvas.ctx s;
     Canvas.startPos := Canvas.startPos s;
     Canvas.previewCtx := Canvas.previewCtx s;
     Canvas.textInputValue := value;
     Canvas.textInputPosition := position;
     Canvas.roughGenerator := Canvas.roughGenerator s |}.

Definition withSession (s : Canvas.State) (anchor : Point) : Canvas.State :=
  {| Canvas.isDrawing := true; Canvas.ctx := Canvas.ctx s;
     Canvas.startPos := Some anchor;
     Canvas.previewCtx := Canvas.previewCtx s;
     Canvas.textInputValue := Canvas.textInputValue s;
     Canvas.textInputPosition := Canvas.textInputPosition s;
     Canvas.roughGenerator := Canvas.roughGenerator s |}.

Definition withTool (p : Canvas.Props) (mode : Canvas.DrawMode)
    (sketchy : bool) : Canvas.Props :=
  {| Canvas.width := Canvas.width p; Canvas.height := Canvas.height p;
     Canvas.color := Canvas.color p; Canvas.lineWidth := Canvas.lineWidth p;
     Canvas.drawMode := mode; Canvas.roughness := Canvas.roughness p;
     Canvas.enableRough := sketchy |}.

Definition enterKey : Canvas.KeyboardEvent :=
  {| Canvas.key := "Enter"; Canvas.shiftKey := false |}.

(** A canvas whose bounding rectangle starts at the viewport origin. *)
Definition atOrigin : option DOMRect := Some {| left := 0; top := 0 |}.

(** A text region open at (10, 10) with nothing typed in it. *)
Definition emptyRegion : Canvas.State :=
  withText mountedState [] (Some (mkPoint 10 10)).

(** A text region open at (1, 1) holding two spaces. *)
Definition blankRegion : Canvas.State :=
  withText mountedState [32; 32]%N (Some (mkPoint 1 1)).

Definition textProps : Canvas.Props :=
  withTool Canvas.defaultProps Canvas.text true.

(** A decoded image of 1000 x 2000, and one of 1000 x 500. *)
Definition tallImage : Image :=
  {| img_id := 0; img_width := 1000; img_height := 2000 |}.

Definition wideImage : Image :=
  {| img_id := 1; img_width := 1000; img_height := 500 |}.

(** The arrow tool with sketchy rendering on (the default), and a session
    anchored at (0, 0). *)
Definition sketchyArrowProps : Canvas.Props :=
  withTool Canvas.defaultProps Canvas.arrow true.

Definition sessionAtOrigin : Canvas.State :=
  withSession mountedState (mkPoint 0 0).

Definition rectangleProps : Canvas.Props :=
  withTool Canvas.defaultProps Canvas.rectangle false.

Definition arrowProps : Canvas.Props :=
  withTool Canvas.defaultProps Canvas.arrow false.

Definition moveProps : Canvas.Props :=
  withTool Canvas.defaultProps Canvas.move true.

(** A drag from (10, 10) over (30, 20) to (50, 50). *)
Definition dragDown : Canvas.Pointer :=
  Canvas.PointerDown atOrigin (MouseEvent 10 10).

Definition dragMoves : list (option DOMRect * Event) :=
  [ (atOrigin, MouseEvent 30 20); (atOrigin, MouseEvent 50 50) ].

(** A text region open at (10, 10) holding "Hi". *)
Definition hiRegion : Canvas.State :=
  withText mountedState [72; 105]%N (Some (mkPoint 10 10)).

Definition pageCanvas : Home.CanvasElement :=
  {| Home.canvas_width := 800; Home.canvas_height := 600;
     Home.context2d := true |}.

(** The points of the viewport positions (50, 50), (10, 10) and (100, 0) on
    a canvas at the viewport origin. *)
Definition corner50 : Point := getCoordinates atOrigin (MouseEvent 50 50).
Definition corner10 : Point := getCoordinates atOrigin (MouseEvent 10 10).
Definition arrowTip : Point := getCoordinates atOrigin (MouseEvent 100 0).

(** ** The clipboard scan of [handlePaste] *)

Module Clipboard.

(** A file offered by the clipboard; reading and decoding it is the
    browser's business. *)
Record Blob := { blob_id : nat }.

(** A [DataTransferItem], as far as it is read. *)
Record Item := { type : string; getAsFile : option Blob }.

(** [hay.indexOf(needle) !== -1] *)
Fixpoint includes (needle hay : string) : bool :=
  String.prefix needle hay ||
  match hay with
  | EmptyString => false
  | String _ rest => includes needle rest
  end.

(** The [for] loop over the items: the value of [hasImage] when the loop
    ends and the blob handed to the [FileReader], if any. *)
Fixpoint scan (items : list Item) (hasImage : bool) : bool * option Blob :=
  match items with
  | [] => (hasImage, None)
  | item :: rest =>
      if includes "image" (type item) then
        match getAsFile item with
        | None => scan rest true
        | Some blob => (true, Some blob)
        end
      else scan rest hasImage
  end.

(** The synchronous part of [handlePaste]: its effects and the blob whose
    decoded image later reaches [Canvas.handlePaste_onload].  [s] is the
    state of the render that defined this [handlePaste], whose [ctx] the
    function closes over; [canvasMounted] says whether [canvasRef.current]
    is there when the event arrives, [clipboardData] is
    [e.clipboardData.items] when both exist. *)
Definition handlePaste (s : Canvas.State) (canvasMounted : bool)
    (clipboardData : option (list Item)) : list Effect * option Blob :=
  if negb (Canvas.ctx s) || negb canvasMounted then ([], None)
  else
    match clipboardData with
    | None => ([], None)
    | Some items =>
        let '(hasImage, blob) := scan items false in
        ((match blob with
          | Some _ => [ PreventDefault ]
          | None => []
          end) ++
         (if hasImage then []
          else [ Toast false "No image in clipboard" ]),
         blob)
    end.

End Clipboard.

(** The paste listener of the running component.  The mount effect has an
    empty dependency list, so it runs once, after the first render, and
    the function it registers on [window] is the [handlePaste] of that
    render, for as long as the component is mounted: the listener sees the
    state of the first render whatever the component's state has become. *)
Definition pasteListener (canvasMounted : bool)
    (clipboardData : option (list Clipboard.Item))
    : list Effect * option Clipboard.Blob :=
  Clipboard.handlePaste Canvas.firstRender canvasMounted clipboardData.

(** ** Keyboard shortcuts of the page and of the toolbar *)

Module Keys.

(** A [keydown] event on the window; [targetIsField] says whether its
    target is an input or a textarea. *)
Record KeyDown := {
  targetIsField : bool;
  key : string;
  ctrlKey : bool;
  metaKey : bool
}.

(** [String.prototype.toLowerCase] on the ASCII range; the bytes of other
    characters are kept, none of them lowers to an ASCII letter. *)
Definition lowerAscii (c : ascii) : ascii :=
  let n := nat_of_ascii c in
  if (65 <=? n)%nat && (n <=? 90)%nat then ascii_of_nat (n + 32) else c.

Fixpoint toLowerCase (s : string) : string :=
  match s with
  | EmptyString => EmptyString
  | String c rest => String (lowerAscii c) (toLowerCase rest)
  end.

(** What a shortcut does to the page. *)
Inductive PageEffect :=
| SetDrawMode (m : Canvas.DrawMode)
| SetEnableRough (b : bool)
| Notify (success : bool) (message : string)
| KeyPreventDefault
| InvokeSave
| InvokeClear
| SetCustomColor (v : string)
| SetColor (v : string).

End Keys.
Import Keys.

Module HomeKeys.

(** The [keydown] listener of the page; [enableRough] is the state its
    closure holds (the listener is registered anew when it changes). *)
Definition handleKeyDown (enableRough : bool) (e : KeyDown)
    : list PageEffect :=
  if targetIsField e then []
  else
    let k := toLowerCase (key e) in
    if String.eqb k "p" then
      [ SetDrawMode Canvas.pen; Notify true "Pen tool selected" ]
    else if String.eqb k "r" then
      [ SetDrawMode Canvas.rectangle; Notify true "Rectangle tool selected" ]
    else if String.eqb k "c" then
      [ SetDrawMode Canvas.circle; Notify true "Circle tool selected" ]
    else if String.eqb k "l" then
      [ SetDrawMode Canvas.line; Notify true "Line tool selected" ]
    else if String.eqb k "a" then
      [ SetDrawMode Canvas.arrow; Notify true "Arrow tool selected" ]
    else if String.eqb k "t" then
      [ SetDrawMode Canvas.text; Notify true "Text tool selected" ]
    else if String.eqb k "m" then
      [ SetDrawMode Canvas.move; Notify true "Move tool selected" ]
    else if String.eqb k "q" then
      [ SetEnableRough (negb enableRough);
        Notify true (if enableRough then "Smooth mode" else "Sketchy mode") ]
    else if String.eqb k "s" then
      if ctrlKey e || metaKey e then [ KeyPreventDefault; InvokeSave ] else []
    else if String.eqb k "delete" || String.eqb k "backspace" then
      if ctrlKey e then [ KeyPreventDefault; InvokeClear ] else []
    else [].

End HomeKeys.

(** ** The toolbar *)

Module Regex.

(** The regular expressions the toolbar uses: no star, bounded
    repetition only. *)
Inductive Re :=
| Lit (c : ascii)
| Ranges (rs : list (ascii * ascii))
| Seq (a b : Re)
| Times (lo extra : nat) (a : Re).

(** Canonical form of a character under the [i] flag. *)
Definition canonical (ignoreCase : bool) (c : ascii) : ascii :=
  if ignoreCase then
    let n := nat_of_ascii c in
    if (97 <=? n)%nat && (n <=? 122)%nat then ascii_of_nat (n - 32) else c
  else c.

Definition inRange (c : ascii) (r : ascii * ascii) : bool :=
  (nat_of_ascii (fst r) <=? nat_of_ascii c)%nat &&
  (nat_of_ascii c <=? nat_of_ascii (snd r))%nat.

(** Under [i] a class matches a character when it contains one with the
    same canonical form: the character itself or its other case. *)
Definition inClass (ignoreCase : bool) (rs : list (ascii * ascii))
    (c : ascii) : bool :=
  existsb (inRange c) rs ||
  (ignoreCase &&
   (existsb (inRange (canonical true c)) rs ||
    existsb (inRange (Keys.lowerAscii c)) rs)).

(** All the ways [re] matches a prefix of [s]: the rests of [s]. *)
Fixpoint rests (ignoreCase : bool) (re : Re) (s : string) : list string :=
  match re with
  | Lit c =>
      match s with
      | String c' rest =>
          if Ascii.eqb (canonical ignoreCase c') (canonical ignoreCase c)
          then [rest] else []
      | EmptyString => []
      end
  | Ranges rs =>
      match s with
      | String c' rest => if inClass ignoreCase rs c' then [rest] else []
      | EmptyString => []
      end
  | Seq a b => flat_map (rests ignoreCase b) (rests ignoreCase a s)
  | Times lo extra a =>
      let once := rests ignoreCase a in
      let fix atMost (n : nat) (s : string) : list string :=
        match n with
        | O => [s]
        | S n' => flat_map (atMost n') (once s) ++ [s]
        end in
      let fix exactly (n : nat) (s : string) : list string :=
        match n with
        | O => atMost extra s
        | S n' => flat_map (exactly n') (once s)
        end in
      exactly lo s
  end.

(** [/^re$/.test(s)], without the [m] flag: the whole of [s] matches. *)
Definition test (ignoreCase : bool) (re : Re) (s : string) : bool :=
  existsb (fun rest => String.eqb rest "") (rests ignoreCase re s).

End Regex.

Module Toolbar.

(** [/^#([0-9A-F]{3}){1,2}$/i], between its anchors. *)
Definition hexColor : Regex.Re :=
  Regex.Seq (Regex.Lit "#")
    (Regex.Times 1 1
       (Regex.Times 3 0 (Regex.Ranges [("0", "9"); ("A", "F")]%char))).

Definition validateAndSetColor (inputValue : string) : list PageEffect :=
  SetCustomColor inputValue ::
  (if Regex.test true hexColor inputValue then [ SetColor inputValue ]
   else []).

(** The [keydown] listener of the toolbar; [onDrawModeChange] says whether
    the optional callback was given. *)
Definition handleKeyDown (onDrawModeChange : bool) (e : KeyDown)
    : list PageEffect :=
  if targetIsField e then []
  else
    let select m message :=
      (if onDrawModeChange then [ SetDrawMode m ] else []) ++
      [ Notify false message ] in
    let k := toLowerCase (key e) in
    if String.eqb k "p" then select Canvas.pen "Pen tool selected"%string
    else if String.eqb k "l" then
      select Canvas.line "Line tool selected"%string
    else if String.eqb k "r" then
      select Canvas.rectangle "Rectangle tool selected"%string
    else if String.eqb k "c" then
      select Canvas.circle "Circle tool selected"%string
    else if String.eqb k "a" then
      select Canvas.arrow "Arrow tool selected"%string
    else if String.eqb k "t" then
      select Canvas.text "Text tool selected"%string
    else if String.eqb k "s" then
      if ctrlKey e then [ KeyPreventDefault; InvokeSave ] else []
    else if String.eqb k "delete" then [ InvokeClear ]
    else [].

End Toolbar.

(** ** Plain descriptions the toolbar code is compared with *)

(** 0-9, A-F or a-f. *)
Definition isHexDigit (c : ascii) : bool :=
  let n := nat_of_ascii c in
  ((48 <=? n) && (n <=? 57) || (65 <=? n) && (n <=? 70)
   || (97 <=? n) && (n <=? 102))%nat.

Fixpoint allHex (s : string) : bool :=
  match s with
  | EmptyString => true
  | String c rest => isHexDigit c && allHex rest
  end.

(** A hash sign followed by exactly three or exactly six hex digits. *)
Definition isHexColor (v : string) : bool :=
  match v with
  | String c digits =>
      Ascii.eqb c "#" &&
      ((String.length digits =? 3)%nat || (String.length digits =? 6)%nat) &&
      allHex digits
  | EmptyString => false
  end.

(** The effects of both [keydown] listeners of the window for one key
    press; the order in which the two run is not fixed by the code. *)
Definition bothListeners (enableRough : bool) (e : KeyDown)
    : list PageEffect :=
  Toolbar.handleKeyDown true e ++ HomeKeys.handleKeyDown enableRough e.

Definition requestsClear (effs : list PageEffect) : nat :=
  List.length
    (filter (fun x => match x with InvokeClear => true | _ => false end)
       effs).

Definition requestsSave (effs : list PageEffect) : nat :=
  List.length
    (filter (fun x => match x with InvokeSave => true | _ => false end)
       effs).

(** ** The remaining wiring of the components *)

(** Everything the canvas component reacts to: the pointer events of the
    preview canvas, the events of the textarea, and the [img.onload]
    callback of the paste listener for a decoded image.  The listener is
    the [handlePaste] of the first render: [mount] is the props of that
    render, [canvasMounted] whether [canvasRef.current] was there when the
    paste arrived. *)
Inductive UiEvent :=
| OnPointer (ev : Canvas.Pointer)
| OnTextKeyDown (e : Canvas.KeyboardEvent)
| OnTextBlur
| OnTextChange (value : JSString)
| OnImageLoad (mount : Canvas.Props) (canvasMounted : bool) (img : Image).

Definition handleUi (p : Canvas.Props) (s : Canvas.State) (ev : UiEvent)
    : list Effect :=
  match ev with
  | OnPointer ev => Canvas.handle p s ev
  | OnTextKeyDown e => Canvas.handleTextInputKeyDown p s e
  | OnTextBlur => Canvas.onBlur p s
  | OnTextChange value => Canvas.onChange value
  | OnImageLoad mount canvasMounted img =>
      (* the callback of [pasteListener], the first render's handlePaste *)
      Canvas.handlePaste_onload mount Canvas.firstRender canvasMounted img
  end.

(** Wiring of the preview canvas in the older component. *)
Definition oldHandle (p : OldCanvas.Props) (s : OldCanvas.State)
    (ev : Canvas.Pointer) : list Effect :=
  match ev with
  | Canvas.PointerDown canvas e => OldCanvas.startDrawing p s canvas e
  | Canvas.PointerMove canvas e => OldCanvas.draw p s canvas e
  | Canvas.PointerUp => OldCanvas.stopDrawing p s
  end.

Section Running.

Context {rz : Raster.Rasterizer}.

(** One event of the canvas component, each with the props of the render
    it arrives in: the effects of its handler, performed on the state and
    on the canvases.  What React does outside the handlers when props
    change between two events is not part of the step: the effect that
    copies a new [color] or [lineWidth] to both contexts, and the reset of
    both canvases when the [width] or [height] attribute changes.  The
    state is not concerned by either; properties of the canvases are
    stated for events that keep these four props ([sameSurface]). *)
Definition stepUi (cfg : Raster.Config) (pe : Canvas.Props * UiEvent)
    : Raster.Config :=
  Raster.perform (handleUi (fst pe) (fst cfg) (snd pe)) cfg.

Definition stepsUi (evs : list (Canvas.Props * UiEvent))
    (cfg : Raster.Config) : Raster.Config :=
  fold_left stepUi evs cfg.

Definition oldStep (p : OldCanvas.Props)
    (cfg : OldCanvas.State * Raster.World) (ev : Canvas.Pointer)
    : OldCanvas.State * Raster.World :=
  let effs := oldHandle p (fst cfg) ev in
  (fold_left OldCanvas.reduce effs (fst cfg), Raster.run effs (snd cfg)).

Definition oldSteps (p : OldCanvas.Props) (evs : list Canvas.Pointer)
    (cfg : OldCanvas.State * Raster.World)
    : OldCanvas.State * Raster.World :=
  fold_left (oldStep p) evs cfg.

(** One instance of the shape of the active tool from anchor [a] to the
    current point [c], on a blank canvas: what a context with drawing state
    [d] and the identity transformation shows of it, [n] sketches having
    been drawn before.  Precise rendering strokes one path (the arrow
    strokes its shaft and fills its head); sketchy rendering draws one
    roughjs drawable (of the arrow, its head). *)
Definition shapePixels (p : Canvas.Props) (generator : bool)
    (d : Raster.DrawState) (n : nat) (a c : Point) : Raster.Bitmap :=
  let stroked path :=
    Raster.stroke_px (Raster.strokeStyle d) (Raster.ctxLineWidth d)
      (Raster.lineCap d) (Raster.lineJoin d) path in
  let headLength := Rmin (Canvas.lineWidth p * 5) 20 in
  let angle := atan2 (py c - py a) (px c - px a) in
  let radius := sqrt ((px c - px a) ^ 2 + (py c - py a) ^ 2) in
  let options fillColor :=
    {| stroke := Canvas.color p; strokeWidth := Canvas.lineWidth p;
       rough_roughness := Canvas.roughness p; fill := fillColor |} in
  if Canvas.enableRough p && generator then
    match Canvas.drawMode p with
    | Canvas.rectangle =>
        Raster.rough_px n []
          (RoughRectangle (px a) (py a) (px c - px a) (py c - py a)
             (options (Some "transparent"%string)))
    | Canvas.circle =>
        Raster.rough_px n []
          (RoughCircle (px a) (py a) (radius * 2)
             (options (Some "transparent"%string)))
    | Canvas.line =>
        Raster.rough_px n []
          (RoughLine (px a) (py a) (px c) (py c) (options None))
    | Canvas.arrow =>
        Raster.rough_px n
          [Raster.XTranslate (px c) (py c); Raster.XRotate angle]
          (RoughLinearPath
             [ (0, 0); (- headLength, - headLength / 2);
               (- headLength, headLength / 2); (0, 0) ]
             (options (Some (Canvas.color p))))
    | _ => Raster.blank
    end
  else
    match Canvas.drawMode p with
    | Canvas.rectangle =>
        stroked [([], Rect (px a) (py a) (px c - px a) (py c - py a))]
    | Canvas.circle =>
        stroked [([], Arc (px a) (py a) radius 0 (2 * PI))]
    | Canvas.line =>
        stroked [([], MoveTo (px a) (py a)); ([], LineTo (px c) (py c))]
    | Canvas.arrow =>
        Raster.paint
          (Raster.fill_px (Canvas.color p)
             [ ([], MoveTo (px c) (py c));
               ([], LineTo (px c - headLength * cos (angle - PI / 6))
                      (py c - headLength * sin (angle - PI / 6)));
               ([], LineTo (px c - headLength * cos (angle + PI / 6))
                      (py c - headLength * sin (angle + PI / 6)));
               ([], ClosePath) ])
          (stroked [([], MoveTo (px a) (py a)); ([], LineTo (px c) (py c))])
    | _ => Raster.blank
    end.

End Running.

(** The path a pen gesture builds on a context whose transformation is
    [t]: a [moveTo] at the pointer-down, a [lineTo] per pointer-move. *)
Definition penPath (t : Raster.Transform) (start : Point)
    (pts : list Point) : list (Raster.Transform * PathCmd) :=
  (t, MoveTo (px start) (py start)) ::
  map (fun q => (t, LineTo (px q) (py q))) pts.

Definition movePoints (ms : list (option DOMRect * Event)) : list Point :=
  map (fun m => getCoordinates (fst m) (snd m)) ms.

Definition penProps : Canvas.Props :=
  withTool Canvas.defaultProps Canvas.pen true.

(** An effect that can make pixels of the main canvas transparent. *)
Definition erasesMain (e : Effect) : bool :=
  match e with
  | Main (ClearRect _ _ _ _) => true
  | _ => false
  end.

Definition escapeKey : Canvas.KeyboardEvent :=
  {| Canvas.key := "Escape"; Canvas.shiftKey := false |}.

(** A world whose main canvas has a coloured pixel at (0, 0). *)
(** A clipboard item holding a PNG file. *)
Definition pngItem : Clipboard.Item :=
  {| Clipboard.type := "image/png";
     Clipboard.getAsFile := Some {| Clipboard.blob_id := 0 |} |}.

Definition inkedWorld : Raster.World :=
  {| Raster.main :=
       Raster.set_bitmap (Raster.dot "#000000") Raster.freshCtx;
     Raster.preview := Raster.freshCtx;
     Raster.sketches := 0 |}.

(** The page scrolled by (dx, dy): the bounding rectangle of the canvas
    and the viewport position of the pointer move together. *)
Definition scrollCanvas (dx dy : R) (canvas : option DOMRect)
    : option DOMRect :=
  match canvas with
  | Some rect => Some {| left := left rect + dx; top := top rect + dy |}
  | None => None
  end.

Definition scrollEvent (dx dy : R) (e : Event) : Event :=
  match e with
  | MouseEvent x y => MouseEvent (x + dx) (y + dy)
  | TouchEvent x y => TouchEvent (x + dx) (y + dy)
  end.

Definition scrollPointer (dx dy : R) (ev : Canvas.Pointer)
    : Canvas.Pointer :=
  match ev with
  | Canvas.PointerDown canvas e =>
      Canvas.PointerDown (scrollCanvas dx dy canvas)
        (scrollEvent dx dy e)
  | Canvas.PointerMove canvas e =>
      Canvas.PointerMove (scrollCanvas dx dy canvas)
        (scrollEvent dx dy e)
  | Canvas.PointerUp => Canvas.PointerUp
  end.

(** Typing "Hi" with the Text tool at (10, 10) and pressing Enter. *)
Definition typingHi : list (Canvas.Props * UiEvent) :=
  [ (textProps, OnPointer (Canvas.PointerDown atOrigin (MouseEvent 10 10)));
    (textProps, OnTextChange [72; 105]%N);
    (textProps, OnTextKeyDown enterKey) ].

(** A pen stroke from (10, 10) to (50, 50), then the callback of a paste
    for a decoded image. *)
Definition penStroke : list (Canvas.Props * UiEvent) :=
  [ (penProps, OnPointer dragDown);
    (penProps, OnPointer (Canvas.PointerMove atOrigin (MouseEvent 50 50)));
    (penProps, OnPointer Canvas.PointerUp);
    (penProps, OnImageLoad penProps true tallImage) ].

(** * Properties *)

Import Raster.

Section NoOps.

Context {rz : Rasterizer}.

(** C7: a pointer-move with no drawing session active, and any pointer
    event while a context is missing, performs no effect: both layers and
    the component state stay as they were. *)
Theorem stray_pointer_events_are_noops :
  forall (p : Canvas.Props) (s : Canvas.State) (w : World)
         (ev : Canvas.Pointer),
    (exists canvas e,
        ev = Canvas.PointerMove canvas e /\ Canvas.isDrawing s = false) \/
    Canvas.ctx s = false \/ Canvas.previewCtx s = false ->
    Canvas.handle p s ev = [] /\ step p (s, w) ev = (s, w).
Proof.
  intros p s w ev H.
  assert (E : Canvas.handle p s ev = []).
  { destruct H as [(canvas & e & -> & Hd) | [Hc | Hc]].
    - cbn. unfold Canvas.draw. now rewrite Hd.
    - destruct ev; cbn;
        unfold Canvas.startDrawing, Canvas.draw, Canvas.stopDrawing;
        rewrite Hc; cbn; auto.
      + now rewrite orb_true_r.
      + now rewrite orb_true_r.
    - destruct ev; cbn;
        unfold Canvas.startDrawing, Canvas.draw, Canvas.stopDrawing;
        rewrite Hc; cbn; now rewrite ?orb_true_r. }
  split; [exact E|].
  unfold step, perform. cbn [fst snd]. now rewrite E.
Qed.

End NoOps.

Section Equivalence.

Context {rz : Rasterizer}.

(** C10: on the tools both versions have (pen, rectangle, circle, line) and
    with sketchy rendering disabled, the pointer-move handler of the newer
    component issues exactly the calls of the older one, in the same order
    and with the same arguments; so both leave the two canvases in the same
    state. *)
Theorem draw_agrees_with_older_version :
  forall (p : OldCanvas.Props) (s : OldCanvas.State) (roughness : R)
         (value : JSString) (position : option Point) (generator : bool)
         (canvas : option DOMRect) (e : Event) (w : World),
    Canvas.draw (sharedProps p roughness false)
      (sharedState s value position generator) canvas e
    = OldCanvas.draw p s canvas e /\
    run (Canvas.draw (sharedProps p roughness false)
           (sharedState s value position generator) canvas e) w
    = run (OldCanvas.draw p s canvas e) w.
Proof.
  intros p s roughness value position generator canvas e w.
  assert (E : Canvas.draw (sharedProps p roughness false)
                (sharedState s value position generator) canvas e
              = OldCanvas.draw p s canvas e).
  { unfold Canvas.draw, OldCanvas.draw. cbn.
    destruct (negb (OldCanvas.isDrawing s) || negb (OldCanvas.ctx s)
              || negb (OldCanvas.previewCtx s)); [reflexivity|].
    destruct (OldCanvas.startPos s) as [sp|]; [|reflexivity].
    f_equal.
    destruct (OldCanvas.drawMode p); reflexivity. }
  split; [exact E | now rewrite E].
Qed.

End Equivalence.

Section Clear.

Context {rz : Rasterizer}.

Lemma covers_in_canvas :
  forall w h i j, in_canvas w h i j -> covers 0 0 w h i j = true.
Proof.
  intros w h i j (Hi & Hi' & Hj & Hj').
  unfold covers, Rleb.
  assert (Rmin 0 (0 + w) <= IZR i)
    by (unfold Rmin; destruct (Rle_dec 0 (0 + w)); lra).
  assert (IZR i + 1 <= Rmax 0 (0 + w))
    by (unfold Rmax; destruct (Rle_dec 0 (0 + w)); lra).
  assert (Rmin 0 (0 + h) <= IZR j)
    by (unfold Rmin; destruct (Rle_dec 0 (0 + h)); lra).
  assert (IZR j + 1 <= Rmax 0 (0 + h))
    by (unfold Rmax; destruct (Rle_dec 0 (0 + h)); lra).
  repeat match goal with
         | |- context [Rle_dec ?a ?b] => destruct (Rle_dec a b); [|lra]
         end.
  reflexivity.
Qed.

(** C8: once the user has confirmed and the clear runs, every pixel of the
    persistent canvas is transparent again, whatever was drawn before; a
    declined confirmation performs nothing and leaves the canvases as they
    were; and the handler performs something only when confirmed. *)
Theorem clear_resets_persistent_layer :
  forall (c : Home.CanvasElement) (w : World),
    transform (state (main w)) = [] ->
    (Home.context2d c = true ->
     forall i j,
       in_canvas (Home.canvas_width c) (Home.canvas_height c) i j ->
       bitmap (main (run (Home.handleClear (Some c) true) w)) i j
       = blank i j) /\
    (forall canvas,
        Home.handleClear canvas false = [] /\
        run (Home.handleClear canvas false) w = w) /\
    (forall canvas confirmed,
        Home.handleClear canvas confirmed <> [] -> confirmed = true).
Proof.
  intros c w Hid. split; [|split].
  - intros Hc i j Hin. unfold Home.handleClear. rewrite Hc. cbn.
    rewrite Hid. now rewrite (covers_in_canvas _ _ _ _ Hin).
  - intros [c'|]; split; reflexivity.
  - intros [c'|] [|]; cbn; congruence.
Qed.

End Clear.

Section Rectangle.


End Rectangle.

Section Text.

Context {rz : Rasterizer}.

(** C3, the claim as the spec states it fails: confirming a region whose
    content is empty leaves the region open. *)
Lemma confirm_empty_text_keeps_region_open :
  Canvas.textInputPosition
    (Canvas.update emptyRegion
       (Canvas.handleTextInputKeyDown Canvas.defaultProps emptyRegion
          enterKey))
  <> None /\
  Canvas.textInputPosition
    (Canvas.update emptyRegion
       (Canvas.onBlur Canvas.defaultProps emptyRegion))
  <> None.
Proof. split; cbn; discriminate. Qed.

(** C3, amended: with the main context available, confirming an open text
    region (Enter without shift, or focus loss) runs the text commit.  When
    the content is non-empty after trimming, the commit paints the literal
    content at the anchor with font size max(3 * lineWidth, 14) px
    sans-serif, top baseline, filled with the stroke colour, empties the
    content and closes the region.  When the content is empty or
    whitespace-only, nothing is performed: both layers and the text-edit
    state stay as they were, so the region stays open. *)
Theorem confirm_text_region :
  forall (p : Canvas.Props) (s : Canvas.State) (pos : Point) (w : World),
    Canvas.ctx s = true ->
    Canvas.textInputPosition s = Some pos ->
    let commit := Canvas.applyTextToCanvas p s in
    let size := Rmax (3 * Canvas.lineWidth p) 14 in
    let textFont := {| font_px := size; font_family := "sans-serif" |} in
    Canvas.handleTextInputKeyDown p s enterKey = PreventDefault :: commit /\
    Canvas.onBlur p s = commit /\
    (truthy (trim (Canvas.textInputValue s)) = true ->
       commit
       = [ Main (SetFont textFont);
           Main (SetFillStyle (Canvas.color p));
           Main (SetTextBaseline "top");
           Main (FillText (Canvas.textInputValue s) (px pos) (py pos));
           SetTextInputValue [];
           SetTextInputPosition None ] /\
       Canvas.textInputPosition (Canvas.update s commit) = None /\
       Canvas.textInputValue (Canvas.update s commit) = [] /\
       bitmap (main (run commit w))
       = paint (text_px textFont (Canvas.color p) "top"
                  (transform (state (main w)))
                  (Canvas.textInputValue s) (px pos) (py pos))
               (bitmap (main w)) /\
       preview (run commit w) = preview w) /\
    (truthy (trim (Canvas.textInputValue s)) = false ->
       commit = [] /\ perform commit (s, w) = (s, w)).
Proof.
  intros p s pos w Hctx Hpos commit size textFont.
  assert (F : Canvas.textFont p = textFont).
  { unfold Canvas.textFont, textFont, size. now rewrite Rmult_comm. }
  split; [reflexivity|]. split; [reflexivity|]. split.
  - intros Ht.
    assert (E : commit
                = [ Main (SetFont textFont);
                    Main (SetFillStyle (Canvas.color p));
                    Main (SetTextBaseline "top");
                    Main (FillText (Canvas.textInputValue s)
                            (px pos) (py pos));
                    SetTextInputValue [];
                    SetTextInputPosition None ]).
    { unfold commit, Canvas.applyTextToCanvas.
      now rewrite Hpos, Hctx, Ht, F. }
    split; [exact E|]. rewrite E. cbn. repeat split.
  - intros Ht.
    assert (E : commit = []).
    { unfold commit, Canvas.applyTextToCanvas.
      now rewrite Hpos, Hctx, Ht. }
    split; [exact E|]. now rewrite E.
Qed.

(** C4, the claim as the spec states it fails: a whitespace-only pending
    content is not discarded by the pointer-down, it is the content of the
    region opened at the clicked point. *)
Lemma pending_whitespace_survives_pointer_down :
  Canvas.textInputValue
    (Canvas.update blankRegion
       (Canvas.startDrawing textProps blankRegion atOrigin
          (MouseEvent 5 5)))
  <> [] /\
  Canvas.textInputPosition
    (Canvas.update blankRegion
       (Canvas.startDrawing textProps blankRegion atOrigin
          (MouseEvent 5 5)))
  = Some (getCoordinates atOrigin (MouseEvent 5 5)).
Proof. cbn. split; [discriminate | reflexivity]. Qed.

(** C4, amended: with the Text tool active, both contexts available and a
    text region open, a pointer-down runs the text commit on the pending
    region and then opens the region at the clicked point.  A pending
    content that is non-empty after trimming is painted at the old anchor
    and the new region starts empty; a whitespace-only pending content is
    not painted, the canvases stay as they were, and it stays the content
    of the text input. *)
Theorem text_pointer_down_commits_pending :
  forall (p : Canvas.Props) (s : Canvas.State) (old : Point)
         (canvas : option DOMRect) (e : Event) (w : World),
    Canvas.drawMode p = Canvas.text ->
    Canvas.ctx s = true -> Canvas.previewCtx s = true ->
    Canvas.textInputPosition s = Some old ->
    let commit := Canvas.applyTextToCanvas p s in
    let clicked := getCoordinates canvas e in
    let effs := Canvas.startDrawing p s canvas e in
    effs = preventScroll e ++ commit ++ [SetTextInputPosition (Some clicked)]
    /\
    Canvas.textInputPosition (Canvas.update s effs) = Some clicked /\
    Canvas.isDrawing (Canvas.update s effs) = Canvas.isDrawing s /\
    (truthy (trim (Canvas.textInputValue s)) = true ->
       Canvas.textInputValue (Canvas.update s effs) = [] /\
       bitmap (main (run effs w))
       = paint (text_px (Canvas.textFont p) (Canvas.color p) "top"
                  (transform (state (main w)))
                  (Canvas.textInputValue s) (px old) (py old))
               (bitmap (main w)) /\
       preview (run effs w) = preview w) /\
    (truthy (trim (Canvas.textInputValue s)) = false ->
       Canvas.textInputValue (Canvas.update s effs)
       = Canvas.textInputValue s /\
       run effs w = w).
Proof.
  intros p s old canvas e w Hm Hctx Hpv Hpos commit clicked effs.
  assert (E : effs = preventScroll e ++ commit
                     ++ [SetTextInputPosition (Some clicked)]).
  { unfold effs, Canvas.startDrawing. now rewrite Hctx, Hpv, Hm, Hpos. }
  split; [exact E|]. rewrite E. clear E effs.
  unfold commit, Canvas.applyTextToCanvas. rewrite Hpos, Hctx.
  destruct w as [m v].
  destruct (truthy (trim (Canvas.textInputValue s))); destruct e; cbn;
    repeat split; intros; try discriminate; repeat split.
Qed.

End Text.

Section Paste.

Context {rz : Rasterizer}.

(** C5: the placement the claim describes is never applied by the running
    component.  The paste listener is the [handlePaste] of the first
    render, in which [ctx] is [null]: whatever the clipboard holds, it
    returns at its guard, without [preventDefault], without reading a file
    and without a message, and no [img.onload] callback of its own ever
    draws.  Pasting a PNG of 1000 x 500 onto the mounted 800 x 600 canvas,
    on which something has been drawn, leaves state and canvases as they
    are, where the claim has the image drawn 780 wide. *)
Theorem paste_listener_never_blits :
  (forall canvasMounted clipboardData,
      pasteListener canvasMounted clipboardData = ([], None)) /\
  (forall p s mount canvasMounted img,
      handleUi p s (OnImageLoad mount canvasMounted img) = []) /\
  pasteListener true (Some [pngItem]) = ([], None) /\
  stepUi (mountedState, inkedWorld)
    (Canvas.defaultProps, OnImageLoad Canvas.defaultProps true wideImage)
  = (mountedState, inkedWorld).
Proof.
  split; [|split; [|split]]; reflexivity.
Qed.

(** For comparison, the [handlePaste] that a render holding the context
    defines, and that no effect registers: it prevents the default paste,
    hands the first readable image file to the reader, and its callback
    draws the decoded image at its placement. *)
Lemma unregistered_handlePaste_reads_the_file :
  forall img,
    Clipboard.handlePaste mountedState true (Some [pngItem])
    = ([PreventDefault], Clipboard.getAsFile pngItem) /\
    Canvas.handlePaste_onload Canvas.defaultProps mountedState true img
    = (let pl := Canvas.pastePlacement Canvas.defaultProps img in
       [ Main (DrawImage img (Canvas.place_x pl) (Canvas.place_y pl)
                 (Canvas.drawWidth pl) (Canvas.drawHeight pl));
         Toast true "Image pasted to canvas" ]).
Proof. intros img. split; reflexivity. Qed.

End Paste.

Section Gesture.

Context {rz : Rasterizer}.

Variable p : Canvas.Props.

Hypothesis tool : usesPreview (Canvas.drawMode p) = true.

Lemma steps_snoc :
  forall evs ev cfg,
    steps p (evs ++ [ev]) cfg = step p (steps p evs cfg) ev.
Proof. intros. unfold steps. now rewrite fold_left_app. Qed.

Lemma sameBrush_refl :
  forall k, transform (state k) = [] -> sameBrush k k.
Proof. intros k H. unfold sameBrush. tauto. Qed.

Lemma sameBrush_trans :
  forall k1 k2 k3, sameBrush k1 k2 -> sameBrush k2 k3 -> sameBrush k1 k3.
Proof.
  unfold sameBrush. intros k1 k2 k3 H1 H2.
  decompose [and] H1. decompose [and] H2. repeat split; congruence.
Qed.

(** Pointer-down with a preview tool: the session starts at the clicked
    point, the preview is cleared, the main canvas is not touched. *)
Lemma down_starts_session :
  forall s w canvas e,
    Canvas.ctx s = true -> Canvas.previewCtx s = true ->
    transform (state (preview w)) = [] ->
    let cfg := step p (s, w) (Canvas.PointerDown canvas e) in
    fst cfg = withSession s (getCoordinates canvas e) /\
    main (snd cfg) = main w /\
    sameBrush (preview (snd cfg)) (preview w) /\
    (forall i j, in_canvas (Canvas.width p) (Canvas.height p) i j ->
                 bitmap (preview (snd cfg)) i j = None).
Proof.
  intros s w canvas e Hc Hp Ht cfg. subst cfg.
  unfold step, perform. cbn [fst snd Canvas.handle].
  unfold Canvas.startDrawing. rewrite Hc, Hp. cbn [negb orb].
  destruct s as [dr cx sp pc tv tp rg]. cbn in Hc, Hp. subst cx pc.
  destruct w as [m [b pa d sv]]. cbn in Ht.
  repeat split;
    destruct (Canvas.drawMode p); try discriminate tool;
    destruct e; cbn; try rewrite Ht; try reflexivity;
    intros i j Hin; now rewrite (covers_in_canvas _ _ _ _ Hin).
Qed.

(** Pointer-move during a session with a preview tool: state and main
    canvas are not touched, the brush of the preview context is kept. *)
Lemma move_keeps_main :
  forall s w sp canvas e,
    Canvas.isDrawing s = true -> Canvas.ctx s = true ->
    Canvas.previewCtx s = true -> Canvas.startPos s = Some sp ->
    transform (state (preview w)) = [] ->
    let cfg := step p (s, w) (Canvas.PointerMove canvas e) in
    fst cfg = s /\
    main (snd cfg) = main w /\
    sameBrush (preview (snd cfg)) (preview w).
Proof.
  intros s w sp canvas e Hd Hc Hp Hs Ht cfg. subst cfg.
  unfold step, perform. cbn [fst snd Canvas.handle].
  unfold Canvas.draw, Canvas.roughShape. rewrite Hd, Hc, Hp, Hs.
  cbn [negb orb].
  destruct w as [m [b pa [ss lw lc lj fs f tb t] sv]]. cbn in Ht. subst t.
  unfold sameBrush.
  destruct (Canvas.drawMode p); try discriminate tool;
    destruct (Canvas.enableRough p); destruct (Canvas.roughGenerator s);
    destruct e; cbn; repeat split.
Qed.

(** A pointer-move clears the preview and renders one instance of the
    shape on it: whatever the preview showed before, it then shows, on
    every pixel of the canvas, that instance and nothing else. *)
Lemma move_renders_one_shape :
  forall s w sp canvas e,
    Canvas.isDrawing s = true -> Canvas.ctx s = true ->
    Canvas.previewCtx s = true -> Canvas.startPos s = Some sp ->
    transform (state (preview w)) = [] ->
    forall i j,
      in_canvas (Canvas.width p) (Canvas.height p) i j ->
      bitmap (preview (snd (step p (s, w) (Canvas.PointerMove canvas e))))
        i j
      = shapePixels p (Canvas.roughGenerator s) (state (preview w))
          (sketches w) sp (getCoordinates canvas e) i j.
Proof.
  intros s w sp canvas e Hd Hc Hp Hs Ht i j Hin.
  unfold step, perform. cbn [fst snd Canvas.handle].
  unfold Canvas.draw, Canvas.roughShape, shapePixels.
  rewrite Hd, Hc, Hp, Hs. cbn [negb orb].
  destruct w as [m [b pa [ss lw lc lj fs f tb t] sv] n]. cbn in Ht. subst t.
  pose proof (covers_in_canvas _ _ _ _ Hin) as Hcov.
  assert (O : forall x : Pixel, over x None = x) by now intros [].
  destruct (Canvas.drawMode p); try discriminate tool;
    destruct (Canvas.enableRough p); destruct (Canvas.roughGenerator s);
    destruct e; cbn; unfold paint, Canvas.roughOptions;
    rewrite ?Hcov, ?Nat.add_0_r, ?O; reflexivity.
Qed.

Lemma shapePixels_brush :
  forall d1 d2 generator n a c,
    strokeStyle d1 = strokeStyle d2 ->
    ctxLineWidth d1 = ctxLineWidth d2 ->
    lineCap d1 = lineCap d2 -> lineJoin d1 = lineJoin d2 ->
    shapePixels p generator d1 n a c = shapePixels p generator d2 n a c.
Proof.
  intros d1 d2 generator n a c H1 H2 H3 H4. unfold shapePixels.
  now rewrite H1, H2, H3, H4.
Qed.

Lemma asMoves_snoc :
  forall ms m,
    asMoves (ms ++ [m]) = asMoves ms ++ [Canvas.PointerMove (fst m) (snd m)].
Proof. intros. unfold asMoves. now rewrite map_app. Qed.

(** After pointer-down and any pointer-moves the session is the one the
    pointer-down started and the main canvas is as before. *)
Lemma moves_keep_main :
  forall s w canvas e ms,
    Canvas.ctx s = true -> Canvas.previewCtx s = true ->
    transform (state (preview w)) = [] ->
    let cfg := steps p (Canvas.PointerDown canvas e :: asMoves ms) (s, w) in
    fst cfg = withSession s (getCoordinates canvas e) /\
    main (snd cfg) = main w /\
    sameBrush (preview (snd cfg)) (preview w).
Proof.
  intros s w canvas e ms Hc Hp Ht.
  induction ms as [|m ms IH] using rev_ind; intros cfg; subst cfg.
  - destruct (down_starts_session s w canvas e Hc Hp Ht) as (A & B & C & _).
    cbn [asMoves map steps fold_left]. auto.
  - rewrite asMoves_snoc, app_comm_cons, steps_snoc.
    cbv zeta in IH. destruct IH as (A & B & C).
    destruct (steps p (Canvas.PointerDown canvas e :: asMoves ms) (s, w))
      as [s1 w1].
    cbn [fst snd] in A, B, C. subst s1.
    assert (T1 : transform (state (preview w1)) = []) by apply C.
    destruct (move_keeps_main
                (withSession s (getCoordinates canvas e)) w1
                (getCoordinates canvas e) (fst m) (snd m))
      as (A' & B' & C'); auto.
    split; [exact A'|]. split; [congruence|].
    eapply sameBrush_trans; eassumption.
Qed.

(** Pointer-up during a session with a preview tool: the preview bitmap is
    composited onto the main canvas at offset (0, 0), pixel by pixel, then
    the preview is cleared and the session ends. *)
Lemma up_commits_preview :
  forall s w sp,
    Canvas.isDrawing s = true -> Canvas.ctx s = true ->
    Canvas.previewCtx s = true -> Canvas.startPos s = Some sp ->
    transform (state (main w)) = [] ->
    transform (state (preview w)) = [] ->
    let cfg := step p (s, w) Canvas.PointerUp in
    Canvas.isDrawing (fst cfg) = false /\
    Canvas.startPos (fst cfg) = None /\
    (forall i j,
        bitmap (main (snd cfg)) i j
        = over (bitmap (preview w) i j) (bitmap (main w) i j)) /\
    (path (main (snd cfg)) = path (main w) /\
     state (main (snd cfg)) = state (main w) /\
     saved (main (snd cfg)) = saved (main w)) /\
    (forall i j, in_canvas (Canvas.width p) (Canvas.height p) i j ->
                 bitmap (preview (snd cfg)) i j = None).
Proof.
  intros s w sp Hd Hc Hp Hs Tm Tp cfg. subst cfg.
  unfold step, perform. cbn [fst snd Canvas.handle].
  unfold Canvas.stopDrawing. rewrite Hd, Hc, Hp, Hs. cbn [negb orb].
  destruct w as [[bm pm dm sm] [bp pp dp sp']]. cbn in Tm, Tp.
  destruct (Canvas.drawMode p); try discriminate tool;
    cbn; rewrite Tm, Tp; unfold paint;
    (split; [reflexivity|]; split; [reflexivity|];
     split; [intros i j; now rewrite !Z.sub_0_r|];
     split; [repeat split|];
     intros i j Hin; now rewrite (covers_in_canvas _ _ _ _ Hin)).
Qed.

End Gesture.

Section Commit.

Context {rz : Rasterizer}.

Lemma shape_tool_uses_preview :
  forall m, Canvas.isShapeTool m = true -> usesPreview m = true.
Proof. now destruct m. Qed.

(** C1, the claim as the spec states it fails: a gesture with no
    pointer-move (a click) commits no shape.  With the rectangle tool,
    pointer-down at (10, 10) and pointer-up issue no stroke, fill or
    sketch, and the main canvas stays blank at the pixel where the
    rasterizer used here puts every shape it draws. *)
Lemma click_without_move_commits_nothing :
  Canvas.handle rectangleProps mountedState dragDown
  = [ SetStartPos (Some corner10);
      Preview (ClearRect 0 0 800 600);
      SetIsDrawing true ] /\
  Canvas.handle rectangleProps (withSession mountedState corner10)
    Canvas.PointerUp
  = [ Main (DrawCanvas PreviewCanvas 0 0);
      Preview (ClearRect 0 0 800 600);
      SetIsDrawing false;
      SetStartPos None ] /\
  bitmap
    (main (snd (steps (rz := dotRasterizer) rectangleProps
                  [dragDown; Canvas.PointerUp] (mountedState, freshWorld))))
    0%Z 0%Z
  = None /\
  shapePixels (rz := dotRasterizer) rectangleProps true defaultState 0
    corner10 corner50 0%Z 0%Z
  = Some "#000000"%string.
Proof.
  split; [reflexivity|]. split; [reflexivity|]. split; [|reflexivity].
  cbn. unfold paint. cbn.
  destruct (covers _ _ _ _ _ _); reflexivity.
Qed.

(** C1, amended: in a gesture with a shape tool (rectangle, circle, line,
    arrow), pointer-down followed by any pointer-moves leaves the main
    canvas as it was, after every move.  Pointer-up composites the whole
    preview bitmap onto the main canvas at offset (0, 0), a coloured
    preview pixel replacing the main pixel and a transparent one keeping
    it, then clears the preview and ends the session.  The preview then
    holds exactly what the last pointer-move rendered on a cleared
    preview: one instance of the shape from the anchor to the last point,
    whatever moves came before it, so that one instance is what the
    gesture commits; a gesture without a pointer-move commits nothing. *)
Theorem shape_gesture_commits_last_render :
  forall (p : Canvas.Props) (s : Canvas.State) (w : World)
         (canvas : option DOMRect) (e : Event)
         (ms : list (option DOMRect * Event)),
    Canvas.isShapeTool (Canvas.drawMode p) = true ->
    Canvas.ctx s = true -> Canvas.previewCtx s = true ->
    transform (state (main w)) = [] ->
    transform (state (preview w)) = [] ->
    let down := Canvas.PointerDown canvas e in
    let after := fun l => steps p (down :: asMoves l) (s, w) in
    let mid := after ms in
    let fin := step p mid Canvas.PointerUp in
    let inside := in_canvas (Canvas.width p) (Canvas.height p) in
    (forall k, main (snd (after (firstn k ms))) = main w) /\
    Canvas.handle p (fst mid) Canvas.PointerUp
    = [ Main (DrawCanvas PreviewCanvas 0 0);
        Preview (ClearRect 0 0 (Canvas.width p) (Canvas.height p));
        SetIsDrawing false;
        SetStartPos None ] /\
    (forall i j,
        bitmap (main (snd fin)) i j
        = match bitmap (preview (snd mid)) i j with
          | Some c => Some c
          | None => bitmap (main w) i j
          end) /\
    (path (main (snd fin)) = path (main w) /\
     state (main (snd fin)) = state (main w) /\
     saved (main (snd fin)) = saved (main w)) /\
    (forall i j, inside i j -> bitmap (preview (snd fin)) i j = None) /\
    Canvas.isDrawing (fst fin) = false /\
    Canvas.startPos (fst fin) = None /\
    (ms = [] ->
     forall i j, inside i j ->
       bitmap (preview (snd mid)) i j = None /\
       bitmap (main (snd fin)) i j = bitmap (main w) i j) /\
    (forall ms' m, ms = ms' ++ [m] ->
     forall i j, inside i j ->
       let one :=
         shapePixels p (Canvas.roughGenerator s) (state (preview w))
           (sketches (snd (after ms')))
           (getCoordinates canvas e) (getCoordinates (fst m) (snd m)) in
       bitmap (preview (snd mid)) i j = one i j /\
       bitmap (main (snd fin)) i j
       = match one i j with
         | Some c => Some c
         | None => bitmap (main w) i j
         end).
Proof.
  intros p s w canvas e ms Htool Hc Hp Tm Tp down after mid fin inside.
  pose proof (shape_tool_uses_preview _ Htool) as tool.
  pose proof (fun l => moves_keep_main p tool s w canvas e l Hc Hp Tp) as K.
  cbv zeta in K. fold down in K.
  change (forall l,
             fst (after l) = withSession s (getCoordinates canvas e) /\
             main (snd (after l)) = main w /\
             sameBrush (preview (snd (after l))) (preview w)) in K.
  destruct (K ms) as (A & B & C). fold mid in A, B, C.
  assert (Tp' : transform (state (preview (snd mid))) = []) by apply C.
  assert (Tm' : transform (state (main (snd mid))) = []) by now rewrite B.
  destruct (up_commits_preview p tool (fst mid) (snd mid)
              (getCoordinates canvas e))
    as (U1 & U2 & U3 & U4 & U5); try (rewrite A; reflexivity); auto.
  { rewrite A. exact Hc. }
  { rewrite A. exact Hp. }
  replace (fst mid, snd mid) with mid in * by now destruct mid.
  fold fin in U1, U2, U3, U4, U5.
  split. { intros k. apply K. }
  split.
  { rewrite A. unfold Canvas.handle, Canvas.stopDrawing. cbn.
    rewrite Hc, Hp. cbn.
    destruct (Canvas.drawMode p); try discriminate Htool; reflexivity. }
  split. { intros i j. rewrite U3, B. reflexivity. }
  split. { rewrite B in U4. exact U4. }
  split; [exact U5|]. split; [exact U1|]. split; [exact U2|].
  split.
  - intros E i j Hin.
    assert (N : bitmap (preview (snd mid)) i j = None).
    { unfold mid, after. rewrite E. cbn [asMoves map steps fold_left].
      now apply (down_starts_session p tool s w canvas e Hc Hp Tp). }
    split; [exact N|]. now rewrite U3, N, B.
  - intros ms' m E i j Hin one.
    assert (N : bitmap (preview (snd mid)) i j = one i j).
    { unfold mid, after. rewrite E.
      rewrite asMoves_snoc, app_comm_cons, steps_snoc.
      fold (after ms').
      destruct (K ms') as (A1 & B1 & C1).
      subst one. destruct (after ms') as [s1 w1]. cbn [fst snd] in *.
      subst s1.
      rewrite (move_renders_one_shape p tool _ w1
                 (getCoordinates canvas e)); auto; [|apply C1].
      cbn [withSession Canvas.roughGenerator].
      unfold sameBrush in C1. decompose [and] C1.
      now rewrite (shapePixels_brush p (state (preview w1))
                     (state (preview w))). }
    split; [exact N|]. now rewrite U3, N, B.
Qed.

(** In move mode a pointer-move clears the preview and draws nothing. *)
Lemma move_tool_draws_nothing :
  forall (p : Canvas.Props) (s : Canvas.State) (sp : Point)
         (canvas : option DOMRect) (e : Event),
    Canvas.drawMode p = Canvas.move ->
    Canvas.isDrawing s = true -> Canvas.ctx s = true ->
    Canvas.previewCtx s = true -> Canvas.startPos s = Some sp ->
    Canvas.draw p s canvas e
    = preventScroll e ++
      Preview (ClearRect 0 0 (Canvas.width p) (Canvas.height p)) ::
      (if Canvas.enableRough p && Canvas.roughGenerator s then []
       else [Preview BeginPath]).
Proof.
  intros p s sp canvas e Hm Hd Hc Hp Hs.
  unfold Canvas.draw, Canvas.roughShape. rewrite Hd, Hc, Hp, Hs, Hm.
  cbn [negb orb]. reflexivity.
Qed.

(** C9: a whole gesture with the Move tool (pointer-down, any
    pointer-moves, pointer-up) leaves every pixel of the main canvas, its
    path and its drawing state as they were before the pointer-down: each
    move clears the preview and draws nothing into it, so pointer-up
    composites a transparent preview. *)
Theorem move_tool_gesture_is_inert :
  forall (p : Canvas.Props) (s : Canvas.State) (w : World)
         (canvas : option DOMRect) (e : Event)
         (ms : list (option DOMRect * Event)),
    Canvas.drawMode p = Canvas.move ->
    Canvas.ctx s = true -> Canvas.previewCtx s = true ->
    transform (state (main w)) = [] ->
    transform (state (preview w)) = [] ->
    let down := Canvas.PointerDown canvas e in
    let mid := steps p (down :: asMoves ms) (s, w) in
    let fin := steps p (down :: asMoves ms ++ [Canvas.PointerUp]) (s, w) in
    (forall canvas' e',
        Canvas.draw p (fst mid) canvas' e'
        = preventScroll e' ++
          Preview (ClearRect 0 0 (Canvas.width p) (Canvas.height p)) ::
          (if Canvas.enableRough p && Canvas.roughGenerator s then []
           else [Preview BeginPath])) /\
    (forall i j, in_canvas (Canvas.width p) (Canvas.height p) i j ->
                 bitmap (preview (snd mid)) i j = None) /\
    (forall i j, in_canvas (Canvas.width p) (Canvas.height p) i j ->
                 bitmap (main (snd fin)) i j = bitmap (main w) i j) /\
    path (main (snd fin)) = path (main w) /\
    state (main (snd fin)) = state (main w) /\
    saved (main (snd fin)) = saved (main w) /\
    Canvas.isDrawing (fst fin) = false /\
    Canvas.startPos (fst fin) = None.
Proof.
  intros p s w canvas e ms Hm Hc Hp Tm Tp down mid fin.
  assert (tool : usesPreview (Canvas.drawMode p) = true) by now rewrite Hm.
  pose proof (fun l => moves_keep_main p tool s w canvas e l Hc Hp Tp) as K.
  cbv zeta in K.
  assert (Blank : forall i j,
             in_canvas (Canvas.width p) (Canvas.height p) i j ->
             bitmap (preview (snd mid)) i j = None).
  { intros i j Hin. unfold mid.
    destruct ms as [|m ms'] using rev_ind.
    - cbn [asMoves map steps fold_left].
      now apply (down_starts_session p tool s w canvas e Hc Hp Tp).
    - clear IHms'. rewrite asMoves_snoc, app_comm_cons, steps_snoc.
      destruct (K ms') as (A1 & B1 & C1). fold down in A1, B1, C1.
      destruct (steps p (down :: asMoves ms') (s, w)) as [s1 w1].
      cbn [fst snd] in *. subst s1.
      unfold step, perform. cbn [fst snd Canvas.handle].
      rewrite (move_tool_draws_nothing p _ (getCoordinates canvas e))
        by (auto; reflexivity).
      assert (T1 : transform (state (preview w1)) = []) by apply C1.
      destruct w1 as [m1 [b1 pa1 d1 sv1]]. cbn in T1.
      pose proof (covers_in_canvas _ _ _ _ Hin) as Hcov.
      destruct (Canvas.enableRough p && Canvas.roughGenerator _);
        destruct (snd m); cbn; rewrite T1; now rewrite Hcov. }
  destruct (K ms) as (A & B & C). fold down in A, B, C. fold mid in A, B, C.
  split.
  { intros canvas' e'. rewrite A.
    now rewrite (move_tool_draws_nothing p _ (getCoordinates canvas e)). }
  split; [exact Blank|].
  assert (Tp' : transform (state (preview (snd mid))) = []) by apply C.
  assert (Tm' : transform (state (main (snd mid))) = []) by now rewrite B.
  destruct (up_commits_preview p tool (fst mid) (snd mid)
              (getCoordinates canvas e))
    as (U1 & U2 & U3 & U4 & U5); try (rewrite A; reflexivity); auto.
  { rewrite A. exact Hc. }
  { rewrite A. exact Hp. }
  replace (fst mid, snd mid) with mid in * by now destruct mid.
  assert (F : fin = step p mid Canvas.PointerUp).
  { unfold fin, mid. now rewrite app_comm_cons, steps_snoc. }
  rewrite <- F in U1, U2, U3, U4, U5. rewrite B in U4.
  split.
  { intros i j Hin. rewrite U3, (Blank i j Hin), B. reflexivity. }
  tauto.
Qed.

End Commit.

Section Arrow.

Lemma sqrt_sum_squares :
  forall x y, x <> 0 ->
    sqrt (x ^ 2 + y ^ 2) = Rabs x * sqrt (1 + (y / x)²).
Proof.
  intros x y Hx.
  replace (x ^ 2 + y ^ 2) with (x² * (1 + (y / x)²))
    by (unfold Rsqr; field; exact Hx).
  rewrite sqrt_mult_alt by apply Rle_0_sqr.
  now rewrite sqrt_Rsqr_abs.
Qed.

Lemma sqrt_one_plus_sqr_pos : forall t, 0 < sqrt (1 + t²).
Proof.
  intros t. apply sqrt_lt_R0. pose proof (Rle_0_sqr t). lra.
Qed.

(** [atan2 y x] is the angle of the vector (x, y). *)
Lemma atan2_direction :
  forall y x, x <> 0 \/ y <> 0 ->
    x = sqrt (x ^ 2 + y ^ 2) * cos (atan2 y x) /\
    y = sqrt (x ^ 2 + y ^ 2) * sin (atan2 y x).
Proof.
  intros y x H. unfold atan2.
  pose proof (sqrt_one_plus_sqr_pos (y / x)) as Hs.
  destruct (Rlt_dec 0 x) as [Hx|Hx].
  - rewrite sqrt_sum_squares, cos_atan, sin_atan by lra.
    rewrite Rabs_pos_eq by lra. split; field; lra.
  - destruct (Rlt_dec x 0) as [Hx'|Hx'].
    + rewrite sqrt_sum_squares by lra.
      rewrite Rabs_left by lra.
      destruct (Rle_dec 0 y).
      * rewrite neg_cos, neg_sin, cos_atan, sin_atan. split; field; lra.
      * replace (atan (y / x) - PI) with (- (- atan (y / x) + PI)) by ring.
        rewrite cos_neg, sin_neg, neg_cos, neg_sin, cos_neg, sin_neg.
        rewrite cos_atan, sin_atan. split; field; lra.
    + assert (x = 0) by lra. subst x.
      assert (Hy : y <> 0) by (destruct H; [lra | assumption]).
      replace (0 ^ 2 + y ^ 2) with (y ^ 2) by ring.
      destruct (Rlt_dec 0 y).
      * rewrite sqrt_pow2, cos_PI2, sin_PI2 by lra. lra.
      * destruct (Rlt_dec y 0); [|lra].
        replace (y ^ 2) with ((- y) ^ 2) by ring.
        rewrite sqrt_pow2, cos_neg, sin_neg, cos_PI2, sin_PI2 by lra. lra.
Qed.

Lemma atan2_on_positive_x_axis : forall x, 0 < x -> atan2 0 x = 0.
Proof.
  intros x Hx. unfold atan2. destruct (Rlt_dec 0 x); [|lra].
  replace (0 / x) with 0 by (field; lra). apply atan_0.
Qed.

Lemma headLength_nonneg :
  forall lw, 0 <= lw -> 0 <= Rmin (lw * 5) 20.
Proof. intros lw H. unfold Rmin. destruct (Rle_dec (lw * 5) 20); lra. Qed.

Lemma polar_distance :
  forall cx cy l a, 0 <= l ->
    distance (cx, cy) (cx - l * cos a, cy - l * sin a) = l.
Proof.
  intros cx cy l a Hl. unfold distance. cbn [fst snd].
  replace ((cx - l * cos a - cx) ^ 2 + (cy - l * sin a - cy) ^ 2)
    with (l ^ 2 * ((sin a)² + (cos a)²)) by (unfold Rsqr; ring).
  rewrite sin2_cos2, Rmult_1_r. now apply sqrt_pow2.
Qed.

(** C2, the claim as the spec states it fails: with sketchy rendering on,
    an arrow from (0, 0) to (100, 0) with line width 5 draws the arrowhead
    only, no segment from anchor to current point; and the back corners of
    the head are (-20, -10) and (-20, 10) in the frame of the tip, that is
    (80, -10) and (80, 10) on the canvas, not at 20 pixels from the tip
    under pi/6 from the line. *)
Lemma sketchy_arrow_differs :
  Canvas.draw sketchyArrowProps sessionAtOrigin atOrigin (MouseEvent 100 0)
  = [ Preview (ClearRect 0 0 800 600);
      Preview Save;
      Preview (Translate 100 0);
      Preview (Rotate 0);
      Preview (RoughDraw
        (RoughLinearPath [ (0, 0); (-20, -10); (-20, 10); (0, 0) ]
           {| stroke := "#000000"; strokeWidth := 5;
              rough_roughness := 1; fill := Some "#000000"%string |}));
      Preview Restore ] /\
  toCanvas [Raster.XTranslate 100 0; Raster.XRotate 0] (-20, -10)
  = (80, -10) /\
  toCanvas [Raster.XTranslate 100 0; Raster.XRotate 0] (-20, 10)
  = (80, 10) /\
  80 <> 100 - 20 * cos (0 - PI / 6) /\
  80 <> 100 - 20 * cos (0 + PI / 6) /\
  distance (100, 0) (80, -10) <> 20.
Proof.
  assert (L : Rmin (5 * 5) 20 = 20)
    by (unfold Rmin; destruct (Rle_dec (5 * 5) 20); lra).
  assert (A : atan2 (0 - 0 - 0) (100 - 0 - 0) = 0).
  { replace (0 - 0 - 0) with 0 by ring.
    apply atan2_on_positive_x_axis. lra. }
  assert (S3 : sqrt 3 <> 2).
  { intros E. pose proof (sqrt_sqrt 3 ltac:(lra)) as Q. rewrite E in Q. lra. }
  split; [|split; [|split; [|split; [|split]]]].
  - unfold Canvas.draw, Canvas.roughArrowHead. cbn. rewrite L, A.
    replace (100 - 0) with 100 by ring.
    replace (0 - 0) with 0 by ring.
    replace (- (20) / 2) with (-10) by field.
    replace (20 / 2) with 10 by field.
    reflexivity.
  - cbn. rewrite cos_0, sin_0. f_equal; ring.
  - cbn. rewrite cos_0, sin_0. f_equal; ring.
  - replace (0 - PI / 6) with (- (PI / 6)) by ring.
    rewrite cos_neg, cos_PI6. lra.
  - replace (0 + PI / 6) with (PI / 6) by ring.
    rewrite cos_PI6. lra.
  - unfold distance. cbn [fst snd]. intros E.
    pose proof (sqrt_sqrt ((80 - 100) ^ 2 + (-10 - 0) ^ 2) ltac:(nra)) as Q.
    rewrite E in Q. lra.
Qed.

(** C2, amended: during an arrow gesture anchored at [a], a pointer-move at
    [c] with line width [w >= 0] clears the preview and then, with
    [L = min(5 * w, 20)] and [theta = atan2(c.y - a.y, c.x - a.x)], which is
    the angle of the line from [a] to [c]:
    - with sketchy rendering off, strokes the segment from [a] to [c] and
      fills, with the stroke colour, the closed path from the tip [c]
      through the two back points
      [c - L * (cos(theta -+ pi/6), sin(theta -+ pi/6))]; these lie at
      distance [L] from the tip, and in the frame translated to [c] and
      rotated by [theta] they are [(-L cos(pi/6), +-L sin(pi/6))], that is
      under 30 degrees on either side of the line; for a = (0, 0) and
      c = (100, 0), theta = 0, the tip is (100, 0) and the back points are
      (100 - L * sqrt(3)/2, +-L/2);
    - with sketchy rendering on, draws the roughjs linear path
      (0, 0), (-L, -L/2), (-L, L/2), (0, 0), fill option set to the stroke
      colour, in the frame translated to [c] and rotated by [theta], so the
      tip of the head is at [c]. *)
Theorem arrow_rendering :
  forall (p : Canvas.Props) (s : Canvas.State)
         (canvas : option DOMRect) (e : Event) (a : Point),
    Canvas.drawMode p = Canvas.arrow ->
    Canvas.isDrawing s = true -> Canvas.ctx s = true ->
    Canvas.previewCtx s = true -> Canvas.startPos s = Some a ->
    0 <= Canvas.lineWidth p ->
    let c := getCoordinates canvas e in
    let L := Rmin (5 * Canvas.lineWidth p) 20 in
    let theta := atan2 (py c - py a) (px c - px a) in
    let back1 :=
      (px c - L * cos (theta - PI / 6), py c - L * sin (theta - PI / 6)) in
    let back2 :=
      (px c - L * cos (theta + PI / 6), py c - L * sin (theta + PI / 6)) in
    let frame := [Raster.XTranslate (px c) (py c); Raster.XRotate theta] in
    let clear :=
      Preview (ClearRect 0 0 (Canvas.width p) (Canvas.height p)) in
    (Canvas.enableRough p && Canvas.roughGenerator s = false ->
     Canvas.draw p s canvas e
     = preventScroll e ++
       [ clear;
         Preview BeginPath;
         Preview BeginPath;
         Preview (MoveTo (px a) (py a));
         Preview (LineTo (px c) (py c));
         Preview Stroke;
         Preview BeginPath;
         Preview (MoveTo (px c) (py c));
         Preview (LineTo (fst back1) (snd back1));
         Preview (LineTo (fst back2) (snd back2));
         Preview ClosePath;
         Preview (SetFillStyle (Canvas.color p));
         Preview Fill ]) /\
    (distance (px c, py c) back1 = L /\
     distance (px c, py c) back2 = L) /\
    (back1 = toCanvas frame (- (L * cos (PI / 6)), L * sin (PI / 6)) /\
     back2 = toCanvas frame (- (L * cos (PI / 6)), - (L * sin (PI / 6)))) /\
    (px c <> px a \/ py c <> py a ->
     px c - px a = distance (px a, py a) (px c, py c) * cos theta /\
     py c - py a = distance (px a, py a) (px c, py c) * sin theta) /\
    (px a = 0 -> py a = 0 -> px c = 100 -> py c = 0 ->
     theta = 0 /\
     back1 = (100 - L * (sqrt 3 / 2), L / 2) /\
     back2 = (100 - L * (sqrt 3 / 2), - (L / 2))) /\
    (Canvas.enableRough p && Canvas.roughGenerator s = true ->
     Canvas.draw p s canvas e
     = preventScroll e ++
       [ clear;
         Preview Save;
         Preview (Translate (px c) (py c));
         Preview (Rotate theta);
         Preview (RoughDraw
           (RoughLinearPath
              [ (0, 0); (- L, - L / 2); (- L, L / 2); (0, 0) ]
              {| stroke := Canvas.color p;
                 strokeWidth := Canvas.lineWidth p;
                 rough_roughness := Canvas.roughness p;
                 fill := Some (Canvas.color p) |}));
         Preview Restore ] /\
     toCanvas frame (0, 0) = (px c, py c)).
Proof.
  intros p s canvas e a Hm Hd Hc Hp Hs Hw c L theta back1 back2 frame clear.
  assert (HL : Rmin (Canvas.lineWidth p * 5) 20 = L)
    by (unfold L; now rewrite Rmult_comm).
  assert (L0 : 0 <= L) by (rewrite <- HL; now apply headLength_nonneg).
  split; [|split; [|split; [|split; [|split]]]].
  - intros Hr. unfold Canvas.draw, Canvas.drawArrow.
    rewrite Hd, Hc, Hp, Hs, Hm, Hr, HL. reflexivity.
  - split; apply polar_distance; exact L0.
  - unfold back1, back2, frame. cbn.
    rewrite !cos_minus, !sin_minus, !cos_plus, !sin_plus.
    split; f_equal; ring.
  - intros Hne.
    destruct (atan2_direction (py c - py a) (px c - px a)) as [X Y];
      [lra|].
    unfold distance. cbn [fst snd]. fold theta in X, Y. split; assumption.
  - intros Hax Hay Hcx Hcy.
    assert (T : theta = 0).
    { unfold theta. rewrite Hax, Hay, Hcx, Hcy.
      replace (0 - 0) with 0 by ring.
      apply atan2_on_positive_x_axis. lra. }
    split; [exact T|]. unfold back1, back2. rewrite T, Hcx, Hcy.
    replace (0 - PI / 6) with (- (PI / 6)) by ring.
    replace (0 + PI / 6) with (PI / 6) by ring.
    rewrite cos_neg, sin_neg, cos_PI6, sin_PI6.
    split; f_equal; field.
  - intros Hr. split.
    + unfold Canvas.draw, Canvas.roughArrowHead, Canvas.roughShape,
        Canvas.roughOptions.
      rewrite Hd, Hc, Hp, Hs, Hm, Hr, HL. reflexivity.
    + unfold frame. cbn. f_equal; ring.
Qed.

End Arrow.

(** * The theorems at concrete inputs *)

Section Witnesses.

Local Existing Instance dotRasterizer.

(** A pointer-move on the freshly mounted component, with no session. *)
Lemma stray_pointer_events_are_noops_witness :
  Canvas.isDrawing mountedState = false /\
  step Canvas.defaultProps (mountedState, freshWorld)
    (Canvas.PointerMove atOrigin (MouseEvent 3 4))
  = (mountedState, freshWorld).
Proof.
  split; [reflexivity|].
  apply (stray_pointer_events_are_noops Canvas.defaultProps mountedState
           freshWorld (Canvas.PointerMove atOrigin (MouseEvent 3 4))).
  left. exists atOrigin, (MouseEvent 3 4). split; reflexivity.
Defined.

(** A confirmed clear of the 800 x 600 page canvas on which a pixel has
    been drawn: the pixel is coloured before and transparent after. *)
Lemma clear_resets_persistent_layer_witness :
  (transform (state (main inkedWorld)) = [] /\
   Home.context2d pageCanvas = true /\
   in_canvas (Home.canvas_width pageCanvas) (Home.canvas_height pageCanvas)
     0 0) /\
  bitmap (main inkedWorld) 0%Z 0%Z = Some "#000000"%string /\
  bitmap (main (run (Home.handleClear (Some pageCanvas) true) inkedWorld))
    0%Z 0%Z
  = blank 0%Z 0%Z.
Proof.
  assert (I : in_canvas (Home.canvas_width pageCanvas)
                (Home.canvas_height pageCanvas) 0 0).
  { unfold in_canvas. cbn. lra. }
  split; [split; [reflexivity | split; [reflexivity | exact I]]|].
  split; [reflexivity|].
  exact (proj1 (clear_resets_persistent_layer pageCanvas inkedWorld eq_refl)
           eq_refl 0%Z 0%Z I).
Defined.


(** Committing "Hi" typed at (10, 10). *)
Lemma confirm_text_region_witness :
  Canvas.ctx hiRegion = true /\
  Canvas.textInputPosition hiRegion = Some (mkPoint 10 10) /\
  Canvas.textInputPosition
    (Canvas.update hiRegion
       (Canvas.applyTextToCanvas Canvas.defaultProps hiRegion))
  = None.
Proof.
  split; [reflexivity|]. split; [reflexivity|].
  apply (confirm_text_region Canvas.defaultProps hiRegion (mkPoint 10 10)
           freshWorld eq_refl eq_refl).
  reflexivity.
Defined.

(** Clicking at (5, 5) while "Hi" is pending at (10, 10). *)
Lemma text_pointer_down_commits_pending_witness :
  Canvas.drawMode textProps = Canvas.text /\
  Canvas.textInputPosition hiRegion = Some (mkPoint 10 10) /\
  Canvas.textInputPosition
    (Canvas.update hiRegion
       (Canvas.startDrawing textProps hiRegion atOrigin (MouseEvent 5 5)))
  = Some (getCoordinates atOrigin (MouseEvent 5 5)).
Proof.
  split; [reflexivity|]. split; [reflexivity|].
  apply (text_pointer_down_commits_pending textProps hiRegion
           (mkPoint 10 10) atOrigin (MouseEvent 5 5) freshWorld
           eq_refl eq_refl eq_refl eq_refl).
Defined.

(** A rectangle dragged from (10, 10) over (30, 20) to (50, 50) on the
    blank canvas: the committed rectangle colours the pixel that the
    rasterizer used here gives every stroke. *)
Lemma shape_gesture_commits_last_render_witness :
  (Canvas.isShapeTool (Canvas.drawMode rectangleProps) = true /\
   in_canvas (Canvas.width rectangleProps) (Canvas.height rectangleProps)
     0 0) /\
  bitmap
    (main (snd (step rectangleProps
                  (steps rectangleProps
                     (Canvas.PointerDown atOrigin (MouseEvent 10 10)
                      :: asMoves dragMoves)
                     (mountedState, freshWorld))
                  Canvas.PointerUp)))
    0%Z 0%Z
  = Some "#000000"%string.
Proof.
  assert (I : in_canvas (Canvas.width rectangleProps)
                (Canvas.height rectangleProps) 0 0).
  { unfold in_canvas. cbn. lra. }
  split; [split; [reflexivity | exact I]|].
  pose proof (shape_gesture_commits_last_render rectangleProps mountedState
                freshWorld atOrigin (MouseEvent 10 10) dragMoves
                eq_refl eq_refl eq_refl eq_refl eq_refl) as T.
  cbv zeta in T. destruct T as (_ & _ & _ & _ & _ & _ & _ & _ & T).
  destruct (T [(atOrigin, MouseEvent 30 20)] (atOrigin, MouseEvent 50 50)
              eq_refl 0%Z 0%Z I) as [_ C].
  etransitivity; [exact C | reflexivity].
Defined.

(** The same drag with the Move tool. *)
Lemma move_tool_gesture_is_inert_witness :
  Canvas.drawMode moveProps = Canvas.move /\
  state (main (snd (steps moveProps
                      (Canvas.PointerDown atOrigin (MouseEvent 10 10)
                       :: asMoves dragMoves ++ [Canvas.PointerUp])
                      (mountedState, freshWorld))))
  = state (main freshWorld).
Proof.
  split; [reflexivity|].
  apply (move_tool_gesture_is_inert moveProps mountedState freshWorld
           atOrigin (MouseEvent 10 10) dragMoves
           eq_refl eq_refl eq_refl eq_refl eq_refl).
Defined.

(** The arrow from (0, 0) to (100, 0). *)
Lemma arrow_rendering_witness :
  Canvas.drawMode arrowProps = Canvas.arrow /\
  0 <= Canvas.lineWidth arrowProps /\
  atan2 (py arrowTip - 0) (px arrowTip - 0) = 0.
Proof.
  assert (W : 0 <= Canvas.lineWidth arrowProps) by (cbn; lra).
  split; [reflexivity|]. split; [exact W|].
  apply (arrow_rendering arrowProps sessionAtOrigin atOrigin
           (MouseEvent 100 0) (mkPoint 0 0)
           eq_refl eq_refl eq_refl eq_refl eq_refl W);
    cbn; lra.
Defined.

End Witnesses.

(** * Further properties of the components *)

Section Pen.

Context {rz : Rasterizer}.

Variable p : Canvas.Props.

Hypothesis tool : Canvas.drawMode p = Canvas.pen.

(** The state, path and pixels of the main canvas after the pointer-down
    and the moves of a pen gesture. *)
Lemma pen_moves :
  forall s w canvas e ms,
    Canvas.ctx s = true -> Canvas.previewCtx s = true ->
    let cfg := steps p (Canvas.PointerDown canvas e :: asMoves ms) (s, w) in
    fst cfg = withSession s (getCoordinates canvas e) /\
    preview (snd cfg) = preview w /\
    state (main (snd cfg)) = state (main w) /\
    saved (main (snd cfg)) = saved (main w) /\
    path (main (snd cfg))
    = penPath (transform (state (main w))) (getCoordinates canvas e)
        (movePoints ms).
Proof.
  intros s w canvas e ms Hc Hp.
  induction ms as [|m ms IH] using rev_ind; intros cfg; subst cfg.
  - unfold steps, step, perform. cbn [asMoves map fold_left fst snd].
    unfold Canvas.handle, Canvas.startDrawing. rewrite Hc, Hp, tool.
    destruct s as [dr cx sp pc tv tp rg]. cbn in Hc, Hp. subst cx pc.
    destruct w as [[bm pm dm sm] v]. destruct e; cbn; repeat split.
  - rewrite asMoves_snoc, app_comm_cons, (steps_snoc p).
    cbv zeta in IH. destruct IH as (A & B & C & D & E).
    destruct (steps p (Canvas.PointerDown canvas e :: asMoves ms) (s, w))
      as [s1 [m1 v1]].
    cbn [fst snd main preview] in A, B, C, D, E. subst s1 v1.
    unfold movePoints. rewrite map_app. fold (movePoints ms).
    unfold penPath. rewrite map_app, app_comm_cons.
    fold (penPath (transform (state (main w))) (getCoordinates canvas e)
            (movePoints ms)).
    rewrite <- E, <- C.
    unfold step, perform. cbn [fst snd Canvas.handle].
    unfold Canvas.draw. cbn. rewrite Hc, Hp, tool. cbn.
    destruct m1 as [bm pm dm sm]. cbn in D.
    destruct (snd m); cbn; repeat split; assumption.
Qed.

(** One pointer-move of a pen session appends a [lineTo] to the path of
    the main context and strokes the whole path at once. *)
Lemma pen_move_strokes :
  forall s w sp canvas e,
    Canvas.isDrawing s = true -> Canvas.ctx s = true ->
    Canvas.previewCtx s = true -> Canvas.startPos s = Some sp ->
    let d := state (main w) in
    let pos := getCoordinates canvas e in
    let path' := path (main w) ++ [(transform d, LineTo (px pos) (py pos))] in
    let cfg := step p (s, w) (Canvas.PointerMove canvas e) in
    path (main (snd cfg)) = path' /\
    bitmap (main (snd cfg))
    = paint (stroke_px (strokeStyle d) (ctxLineWidth d) (lineCap d)
               (lineJoin d) path')
            (bitmap (main w)).
Proof.
  intros s w sp canvas e Hd Hc Hp Hs d pos path' cfg.
  subst cfg path' pos d.
  unfold step, perform. cbn [fst snd Canvas.handle].
  unfold Canvas.draw. rewrite Hd, Hc, Hp, Hs, tool. cbn [negb orb].
  destruct w as [[bm pm dm sm] v]. destruct e; cbn; split; reflexivity.
Qed.

(** Pointer-up of a pen session closes the path and ends the session; it
    paints nothing. *)
Lemma pen_up_closes_path :
  forall s w sp,
    Canvas.isDrawing s = true -> Canvas.ctx s = true ->
    Canvas.previewCtx s = true -> Canvas.startPos s = Some sp ->
    let cfg := step p (s, w) Canvas.PointerUp in
    Canvas.isDrawing (fst cfg) = false /\
    Canvas.startPos (fst cfg) = None /\
    bitmap (main (snd cfg)) = bitmap (main w) /\
    path (main (snd cfg))
    = path (main w) ++ [(transform (state (main w)), ClosePath)] /\
    preview (snd cfg) = preview w.
Proof.
  intros s w sp Hd Hc Hp Hs cfg. subst cfg.
  unfold step, perform. cbn [fst snd Canvas.handle].
  unfold Canvas.stopDrawing. rewrite Hd, Hc, Hp, Hs, tool. cbn [negb orb].
  destruct w as [[bm pm dm sm] v]. cbn. repeat split.
Qed.

End Pen.

Section PenGesture.

Context {rz : Rasterizer}.

(** X1: a pen gesture draws on the main canvas as it goes and never on
    the preview.  After the pointer-down and the moves so far, the path of
    the main context is a [moveTo] at the pointer-down followed by one
    [lineTo] per move; the last move stroked that whole path onto the
    pixels the move before had left; pointer-up only appends [closePath]
    and ends the session, changing no pixel. *)
Theorem pen_gesture_strokes_as_it_goes :
  forall (p : Canvas.Props) (s : Canvas.State) (w : World)
         (canvas : option DOMRect) (e : Event)
         (ms : list (option DOMRect * Event)),
    Canvas.drawMode p = Canvas.pen ->
    Canvas.ctx s = true -> Canvas.previewCtx s = true ->
    let down := Canvas.PointerDown canvas e in
    let after := fun l => steps p (down :: asMoves l) (s, w) in
    let fin := step p (after ms) Canvas.PointerUp in
    let d := state (main w) in
    let drawn :=
      penPath (transform d) (getCoordinates canvas e) (movePoints ms) in
    preview (snd (after ms)) = preview w /\
    path (main (snd (after ms))) = drawn /\
    (ms = [] -> bitmap (main (snd (after ms))) = bitmap (main w)) /\
    (forall ms' m, ms = ms' ++ [m] ->
       bitmap (main (snd (after ms)))
       = paint (stroke_px (strokeStyle d) (ctxLineWidth d) (lineCap d)
                  (lineJoin d) drawn)
               (bitmap (main (snd (after ms'))))) /\
    bitmap (main (snd fin)) = bitmap (main (snd (after ms))) /\
    path (main (snd fin)) = drawn ++ [(transform d, ClosePath)] /\
    preview (snd fin) = preview w /\
    Canvas.isDrawing (fst fin) = false /\
    Canvas.startPos (fst fin) = None.
Proof.
  intros p s w canvas e ms Hm Hc Hp down after fin d drawn.
  pose proof (fun l => pen_moves p Hm s w canvas e l Hc Hp) as K.
  cbv zeta in K. fold down in K.
  destruct (K ms) as (A & B & C & D & E).
  change (steps p (down :: asMoves ms) (s, w)) with (after ms) in A, B, C, D, E.
  split; [exact B|]. split; [exact E|]. split; [|split].
  - intros ->. unfold after, steps, step, perform.
    cbn [asMoves map fold_left fst snd].
    unfold down, Canvas.handle, Canvas.startDrawing. rewrite Hc, Hp, Hm.
    destruct w as [[bm pm dm sm] v]. destruct e; reflexivity.
  - intros ms' m ->. unfold after at 1.
    rewrite asMoves_snoc, app_comm_cons, (steps_snoc p).
    destruct (K ms') as (A' & B' & C' & D' & E').
    change (steps p (down :: asMoves ms') (s, w)) with (after ms')
      in A', B', C', D', E' |- *.
    destruct (after ms') as [s1 w1] eqn:Q. cbn [fst snd] in *.
    destruct (pen_move_strokes p Hm s1 w1 (getCoordinates canvas e)
                (fst m) (snd m)) as [P1 P2];
      try (rewrite A'; reflexivity || assumption).
    rewrite P2, C', E'. unfold drawn, movePoints, penPath, d.
    rewrite !map_app. reflexivity.
  - destruct (after ms) as [s1 w1] eqn:Q. cbn [fst snd] in *.
    destruct (pen_up_closes_path p Hm s1 w1 (getCoordinates canvas e))
      as (U1 & U2 & U3 & U4 & U5);
      try (rewrite A; reflexivity || assumption).
    fold fin in U1, U2, U3, U4, U5.
    rewrite U4, E, C, U5, B. repeat split; assumption.
Qed.

End PenGesture.

Section Sessions.

Context {rz : Rasterizer}.

Lemma perform_nil : forall cfg : Config, perform [] cfg = cfg.
Proof. now intros [s w]. Qed.

(** X2: once a pointer-up (or pointer-leave) has been handled, a second
    one and any pointer-move perform nothing until the next pointer-down:
    mouseup followed by mouseleave commits once. *)
Theorem pointer_up_is_idempotent :
  forall (p p' : Canvas.Props) (cfg : Config)
         (canvas : option DOMRect) (e : Event),
    step p' (step p cfg Canvas.PointerUp) Canvas.PointerUp
    = step p cfg Canvas.PointerUp /\
    step p' (step p cfg Canvas.PointerUp) (Canvas.PointerMove canvas e)
    = step p cfg Canvas.PointerUp.
Proof.
  intros p p' [s w] canvas e.
  assert (G : forall cfg' : Config,
             negb (Canvas.isDrawing (fst cfg')) || negb (Canvas.ctx (fst cfg'))
             || negb (Canvas.previewCtx (fst cfg')) = true \/
             Canvas.startPos (fst cfg') = None ->
             step p' cfg' Canvas.PointerUp = cfg' /\
             step p' cfg' (Canvas.PointerMove canvas e) = cfg').
  { intros [s' w'] H. cbn [fst] in H. unfold step.
    cbn [fst snd Canvas.handle]. unfold Canvas.stopDrawing, Canvas.draw.
    destruct H as [-> | ->].
    - now rewrite !perform_nil.
    - destruct (negb (Canvas.isDrawing s') || negb (Canvas.ctx s')
                || negb (Canvas.previewCtx s')); now rewrite !perform_nil. }
  apply G. unfold step, perform. cbn [fst snd Canvas.handle].
  unfold Canvas.stopDrawing.
  destruct (negb (Canvas.isDrawing s) || negb (Canvas.ctx s)
            || negb (Canvas.previewCtx s)) eqn:Q.
  - left. exact Q.
  - destruct (Canvas.startPos s) eqn:S; [|now right].
    left. unfold Canvas.update. rewrite fold_left_app. reflexivity.
Qed.

End Sessions.

Section TextKeys.

Context {rz : Rasterizer}.

(** X3: in the textarea every key other than Enter without shift leaves
    both canvases alone.  Escape closes the region and empties its content
    whatever was typed; Shift+Enter and all other keys perform nothing. *)
Theorem escape_discards_other_keys_pass :
  forall (p : Canvas.Props) (s : Canvas.State) (w : World)
         (e : Canvas.KeyboardEvent),
    String.eqb (Canvas.key e) "Enter" && negb (Canvas.shiftKey e) = false ->
    let effs := Canvas.handleTextInputKeyDown p s e in
    run effs w = w /\
    (Canvas.key e = "Escape"%string ->
       Canvas.textInputPosition (Canvas.update s effs) = None /\
       Canvas.textInputValue (Canvas.update s effs) = [] /\
       Canvas.isDrawing (Canvas.update s effs) = Canvas.isDrawing s /\
       Canvas.startPos (Canvas.update s effs) = Canvas.startPos s) /\
    (Canvas.key e <> "Escape"%string -> effs = []).
Proof.
  intros p s w e H effs. subst effs.
  unfold Canvas.handleTextInputKeyDown. rewrite H.
  destruct (String.eqb (Canvas.key e) "Escape") eqn:Q.
  - split; [reflexivity|]. split; [intros _; repeat split|].
    apply String.eqb_eq in Q. intros N. contradiction.
  - split; [reflexivity|]. split; [|reflexivity].
    intros K. apply String.eqb_neq in Q. contradiction.
Qed.

(** X4: the text commit runs at most once per region.  Whatever the first
    confirmation did, a second one right after it (the blur that follows
    Enter, or a repeated Enter) performs nothing, so a text is never
    painted twice. *)
Theorem second_confirmation_performs_nothing :
  forall (p p' : Canvas.Props) (s : Canvas.State),
    Canvas.applyTextToCanvas p'
      (Canvas.update s (Canvas.applyTextToCanvas p s)) = [] /\
    Canvas.onBlur p'
      (Canvas.update s (Canvas.handleTextInputKeyDown p s enterKey)) = [] /\
    Canvas.handleTextInputKeyDown p'
      (Canvas.update s (Canvas.handleTextInputKeyDown p s enterKey))
      enterKey = [PreventDefault].
Proof.
  intros p p' s.
  assert (A : Canvas.applyTextToCanvas p'
                (Canvas.update s (Canvas.applyTextToCanvas p s)) = []).
  { unfold Canvas.applyTextToCanvas at 2.
    destruct (Canvas.textInputPosition s) as [pos|] eqn:P.
    - destruct (negb (Canvas.ctx s)
                || negb (truthy (trim (Canvas.textInputValue s)))) eqn:G.
      + cbn. unfold Canvas.applyTextToCanvas. now rewrite P, G.
      + reflexivity.
    - cbn. unfold Canvas.applyTextToCanvas. now rewrite P. }
  assert (B : Canvas.update s
                (Canvas.handleTextInputKeyDown p s enterKey)
              = Canvas.update s (Canvas.applyTextToCanvas p s)).
  { reflexivity. }
  split; [exact A|]. rewrite B. split.
  - exact A.
  - unfold Canvas.handleTextInputKeyDown. cbn [enterKey Canvas.key
      Canvas.shiftKey String.eqb Ascii.eqb Bool.eqb andb negb].
    cbn. now rewrite A.
Qed.

End TextKeys.

Section Coordinates.

Context {rz : Rasterizer}.

Lemma scrolled_coordinates :
  forall dx dy canvas e,
    getCoordinates (scrollCanvas dx dy canvas) (scrollEvent dx dy e)
    = getCoordinates canvas e.
Proof.
  intros dx dy [rect|] e; [|now destruct e].
  destruct e; cbn; f_equal; ring.
Qed.

Lemma scrolled_touch :
  forall dx dy e, isTouch (scrollEvent dx dy e) = isTouch e.
Proof. intros dx dy []; reflexivity. Qed.

Lemma scrolled_handle :
  forall dx dy p s ev,
    Canvas.handle p s (scrollPointer dx dy ev) = Canvas.handle p s ev.
Proof.
  intros dx dy p s [canvas e|canvas e|]; [| |reflexivity];
    cbn [scrollPointer Canvas.handle];
    unfold Canvas.startDrawing, Canvas.draw, Canvas.roughShape,
      Canvas.roughArrowHead, preventScroll;
    now rewrite scrolled_coordinates, scrolled_touch.
Qed.

(** X5: gestures are insensitive to scrolling.  If the canvas and the
    pointer are displaced together, by any amount and differently at each
    event, every handler performs the same effects, so a whole sequence
    of pointer events leaves the same state and the same canvases. *)
Theorem gestures_are_scroll_invariant :
  forall (p : Canvas.Props)
         (evs : list (R * R * Canvas.Pointer)) (cfg : Config),
    steps p (map (fun d => scrollPointer (fst (fst d)) (snd (fst d)) (snd d))
               evs) cfg
    = steps p (map snd evs) cfg.
Proof.
  intros p evs. unfold steps.
  induction evs as [|[[dx dy] ev] evs IH]; intros cfg; [reflexivity|].
  cbn [map fold_left fst snd]. rewrite <- IH. f_equal.
  unfold step. now rewrite scrolled_handle.
Qed.

End Coordinates.

Section AppendOnly.

Context {rz : Rasterizer}.

Lemma over_keeps_colour :
  forall src dst, dst <> None -> over src dst <> None.
Proof. intros [c|] dst H; cbn; [discriminate | exact H]. Qed.

Lemma exec_effect_keeps_colour :
  forall (e : Effect) (w : World) i j,
    erasesMain e = false ->
    bitmap (main w) i j <> None ->
    bitmap (main (exec_effect w e)) i j <> None.
Proof.
  intros e w i j He H.
  destruct e as [c|c| | | | | |]; try exact H.
  destruct w as [[bm pm dm sm] v].
  destruct c; try discriminate He; cbn in *; try exact H;
    try (apply over_keeps_colour; exact H).
  destruct sm; exact H.
Qed.

Lemma run_keeps_colour :
  forall (effs : list Effect) (w : World) i j,
    forallb (fun e => negb (erasesMain e)) effs = true ->
    bitmap (main w) i j <> None ->
    bitmap (main (run effs w)) i j <> None.
Proof.
  induction effs as [|e effs IH]; intros w i j F H; [exact H|].
  cbn in F. apply andb_prop in F. destruct F as [Fe F].
  apply negb_true_iff in Fe.
  unfold run. cbn [fold_left]. apply IH; [exact F|].
  now apply exec_effect_keeps_colour.
Qed.

Lemma forallb_app_true :
  forall (A : Type) (f : A -> bool) l1 l2,
    forallb f l1 = true -> forallb f l2 = true ->
    forallb f (l1 ++ l2) = true.
Proof. intros. rewrite forallb_app. now apply andb_true_intro. Qed.

Lemma handlers_never_clear_main :
  forall (p : Canvas.Props) (s : Canvas.State) (ev : UiEvent),
    forallb (fun e => negb (erasesMain e)) (handleUi p s ev) = true.
Proof.
  intros p s ev.
  assert (T : forallb (fun e => negb (erasesMain e))
                (Canvas.applyTextToCanvas p s) = true).
  { unfold Canvas.applyTextToCanvas.
    destruct (Canvas.textInputPosition s); [|reflexivity].
    destruct (negb (Canvas.ctx s) || _); reflexivity. }
  assert (P : forall e, forallb (fun e => negb (erasesMain e))
                          (preventScroll e) = true).
  { now intros []. }
  destruct ev as [[canvas e|canvas e|]|e| |v|img]; cbn [handleUi].
  - unfold Canvas.handle, Canvas.startDrawing.
    destruct (negb (Canvas.ctx s) || negb (Canvas.previewCtx s));
      [reflexivity|].
    apply forallb_app_true; [apply P|].
    destruct (Canvas.drawMode p); try reflexivity.
    apply forallb_app_true; [|reflexivity].
    destruct (Canvas.textInputPosition s); [exact T | reflexivity].
  - unfold Canvas.handle, Canvas.draw, Canvas.roughShape.
    destruct (negb (Canvas.isDrawing s) || negb (Canvas.ctx s)
              || negb (Canvas.previewCtx s)); [reflexivity|].
    destruct (Canvas.startPos s); [|reflexivity].
    apply forallb_app_true; [apply P|].
    destruct (Canvas.drawMode p);
      destruct (Canvas.enableRough p && Canvas.roughGenerator s);
      reflexivity.
  - unfold Canvas.handle, Canvas.stopDrawing.
    destruct (negb (Canvas.isDrawing s) || negb (Canvas.ctx s)
              || negb (Canvas.previewCtx s)); [reflexivity|].
    destruct (Canvas.startPos s); [|reflexivity].
    destruct (Canvas.drawMode p); reflexivity.
  - unfold Canvas.handleTextInputKeyDown.
    destruct (String.eqb (Canvas.key e) "Enter" && negb (Canvas.shiftKey e)).
    + cbn. exact T.
    + destruct (String.eqb (Canvas.key e) "Escape"); reflexivity.
  - exact T.
  - reflexivity.
  - reflexivity.
Qed.

(** X6: the handlers of the canvas component only ever add to the main
    canvas.  While every render keeps the width, height, colour and stroke
    width [p0] that the canvases were set up with, so that no canvas is
    reset, then whatever the tool, the rendering mode, the state and the
    event (pointer, textarea key, blur, change, callback of a paste), and
    over any sequence of them, a pixel of the main canvas that is coloured
    stays coloured; only the page's clear handler makes pixels transparent
    again. *)
Theorem canvas_component_never_erases :
  forall (p0 : Canvas.Props) (evs : list (Canvas.Props * UiEvent))
         (cfg : Config) (i j : Z),
    Forall (fun pe => sameSurface p0 (fst pe)) evs ->
    bitmap (main (snd cfg)) i j <> None ->
    bitmap (main (snd (stepsUi evs cfg))) i j <> None.
Proof.
  intros p0 evs cfg i j _. revert cfg.
  induction evs as [|[p ev] evs IH]; intros cfg H; [exact H|].
  unfold stepsUi. cbn [fold_left]. apply IH.
  unfold stepUi, perform. cbn [fst snd].
  apply run_keeps_colour; [apply handlers_never_clear_main | exact H].
Qed.

End AppendOnly.

Section Versions.

Context {rz : Rasterizer}.

Lemma shared_handle_agrees :
  forall (p : OldCanvas.Props) (s : OldCanvas.State) (roughness : R)
         (value : JSString) (position : option Point) (generator : bool)
         (ev : Canvas.Pointer),
    Canvas.handle (sharedProps p roughness false)
      (sharedState s value position generator) ev
    = oldHandle p s ev.
Proof.
  intros p s roughness value position generator ev.
  destruct ev as [canvas e|canvas e|]; cbn [Canvas.handle oldHandle].
  - unfold Canvas.startDrawing, OldCanvas.startDrawing. cbn.
    destruct (negb (OldCanvas.ctx s) || negb (OldCanvas.previewCtx s));
      [reflexivity|].
    destruct (OldCanvas.drawMode p); reflexivity.
  - unfold Canvas.draw, OldCanvas.draw. cbn.
    destruct (negb (OldCanvas.isDrawing s) || negb (OldCanvas.ctx s)
              || negb (OldCanvas.previewCtx s)); [reflexivity|].
    destruct (OldCanvas.startPos s); [|reflexivity].
    destruct (OldCanvas.drawMode p); reflexivity.
  - unfold Canvas.stopDrawing, OldCanvas.stopDrawing. cbn.
    destruct (negb (OldCanvas.isDrawing s) || negb (OldCanvas.ctx s)
              || negb (OldCanvas.previewCtx s)); [reflexivity|].
    destruct (OldCanvas.startPos s); [|reflexivity].
    destruct (OldCanvas.drawMode p); reflexivity.
Qed.

Lemma shared_update_agrees :
  forall (p : OldCanvas.Props) (s : OldCanvas.State)
         (value : JSString) (position : option Point) (generator : bool)
         (ev : Canvas.Pointer),
    Canvas.update (sharedState s value position generator) (oldHandle p s ev)
    = sharedState (fold_left OldCanvas.reduce (oldHandle p s ev) s)
        value position generator.
Proof.
  intros p s value position generator ev.
  destruct s as [dr cx sp pc].
  destruct ev as [canvas e|canvas e|]; cbn [oldHandle];
    unfold OldCanvas.startDrawing, OldCanvas.draw, OldCanvas.stopDrawing;
    cbn [OldCanvas.isDrawing OldCanvas.ctx OldCanvas.startPos
         OldCanvas.previewCtx];
    destruct dr, cx, pc; cbn [negb orb]; try reflexivity;
    try (destruct sp; try reflexivity);
    destruct (OldCanvas.drawMode p); try destruct e; reflexivity.
Qed.

(** X8: on pen, rectangle, circle and line with sketchy rendering off, the
    newer component behaves as the older one over whole sequences of
    pointer events: started from corresponding states on the same
    canvases, any sequence of pointer-downs, moves and ups leaves both
    canvases identical and the session states corresponding; the text
    state of the newer component is never touched. *)
Theorem versions_agree_on_gestures :
  forall (p : OldCanvas.Props) (roughness : R) (value : JSString)
         (position : option Point) (generator : bool)
         (evs : list Canvas.Pointer) (s : OldCanvas.State) (w : World),
    steps (sharedProps p roughness false) evs
      (sharedState s value position generator, w)
    = (sharedState (fst (oldSteps p evs (s, w))) value position generator,
       snd (oldSteps p evs (s, w))).
Proof.
  intros p roughness value position generator evs.
  induction evs as [|ev evs IH]; intros s w; [reflexivity|].
  unfold steps, oldSteps in *. cbn [fold_left].
  unfold step at 2, perform. cbn [fst snd].
  rewrite shared_handle_agrees, shared_update_agrees.
  rewrite IH. reflexivity.
Qed.

End Versions.

Section Exclusive.

Context {rz : Rasterizer}.

Lemma text_commit_keeps_session :
  forall p s,
    Canvas.isDrawing (Canvas.update s (Canvas.applyTextToCanvas p s))
    = Canvas.isDrawing s /\
    (Canvas.textInputPosition s = None ->
     Canvas.textInputPosition
       (Canvas.update s (Canvas.applyTextToCanvas p s)) = None).
Proof.
  intros p s. unfold Canvas.applyTextToCanvas.
  destruct (Canvas.textInputPosition s) eqn:P.
  - destruct (negb (Canvas.ctx s) || _); split; try reflexivity;
      intros; discriminate.
  - split; [reflexivity | intros _; exact P].
Qed.

Lemma one_event_keeps_modes_apart :
  forall (p : Canvas.Props) (s : Canvas.State) (ev : UiEvent),
    (Canvas.drawMode p = Canvas.text -> Canvas.isDrawing s = false) ->
    (Canvas.drawMode p <> Canvas.text ->
     Canvas.textInputPosition s = None) ->
    let s' := Canvas.update s (handleUi p s ev) in
    (Canvas.drawMode p = Canvas.text -> Canvas.isDrawing s' = false) /\
    (Canvas.drawMode p <> Canvas.text ->
     Canvas.textInputPosition s' = None).
Proof.
  intros p s ev H1 H2 s'. subst s'.
  destruct (text_commit_keeps_session p s) as [T1 T2].
  destruct ev as [[canvas e|canvas e|]|e| |v|img]; cbn [handleUi].
  - unfold Canvas.handle, Canvas.startDrawing.
    destruct (negb (Canvas.ctx s) || negb (Canvas.previewCtx s));
      [split; assumption|].
    unfold Canvas.update. rewrite fold_left_app.
    assert (Q : fold_left Canvas.reduce (preventScroll e) s = s)
      by now destruct e.
    rewrite Q.
    destruct (Canvas.drawMode p) eqn:M;
      try (split; [intros; discriminate | intros _; cbn; now apply H2]).
    split; [intros _ | intros N; now contradiction N].
    rewrite fold_left_app. cbn.
    destruct (Canvas.textInputPosition s);
      [ unfold Canvas.update in T1; rewrite T1 |]; now apply H1.
  - unfold Canvas.handle, Canvas.draw, Canvas.roughShape.
    destruct (negb (Canvas.isDrawing s) || negb (Canvas.ctx s)
              || negb (Canvas.previewCtx s)); [split; assumption|].
    destruct (Canvas.startPos s); [|split; assumption].
    unfold Canvas.update. rewrite fold_left_app.
    assert (Q : fold_left Canvas.reduce (preventScroll e) s = s)
      by now destruct e.
    rewrite Q.
    destruct (Canvas.drawMode p);
      destruct (Canvas.enableRough p && Canvas.roughGenerator s);
      cbn; split; assumption.
  - unfold Canvas.handle, Canvas.stopDrawing.
    destruct (negb (Canvas.isDrawing s) || negb (Canvas.ctx s)
              || negb (Canvas.previewCtx s)); [split; assumption|].
    destruct (Canvas.startPos s); [|split; assumption].
    destruct (Canvas.drawMode p); cbn; split; try reflexivity; assumption.
  - unfold Canvas.handleTextInputKeyDown.
    destruct (String.eqb (Canvas.key e) "Enter" && negb (Canvas.shiftKey e)).
    + change (Canvas.update s (PreventDefault :: Canvas.applyTextToCanvas p s))
        with (Canvas.update s (Canvas.applyTextToCanvas p s)).
      split; [intros M; rewrite T1; now apply H1
             |intros M; apply T2; now apply H2].
    + destruct (String.eqb (Canvas.key e) "Escape"); cbn;
        split; try reflexivity; assumption.
  - unfold Canvas.onBlur.
    split; [intros M; rewrite T1; now apply H1
           |intros M; apply T2; now apply H2].
  - cbn. split; assumption.
  - cbn. split; assumption.
Qed.

(** X9: while the tool stays the same, a drawing session and an open text
    region never exist together.  From a state with neither, any sequence
    of pointer events, textarea events and pasted images, all under props
    with the same tool, leads to a state where no session is active if the
    tool is Text, and no text region is open otherwise. *)
Theorem session_and_text_region_exclude_each_other :
  forall (mode : Canvas.DrawMode) (evs : list (Canvas.Props * UiEvent))
         (cfg : Config),
    Forall (fun pe => Canvas.drawMode (fst pe) = mode) evs ->
    Canvas.isDrawing (fst cfg) = false ->
    Canvas.textInputPosition (fst cfg) = None ->
    let s' := fst (stepsUi evs cfg) in
    (mode = Canvas.text -> Canvas.isDrawing s' = false) /\
    (mode <> Canvas.text -> Canvas.textInputPosition s' = None) /\
    (Canvas.isDrawing s' = false \/ Canvas.textInputPosition s' = None).
Proof.
  intros mode evs cfg F D T s'.
  assert (G : (mode = Canvas.text -> Canvas.isDrawing s' = false) /\
              (mode <> Canvas.text -> Canvas.textInputPosition s' = None)).
  { subst s'.
    assert (I : (mode = Canvas.text -> Canvas.isDrawing (fst cfg) = false) /\
                (mode <> Canvas.text ->
                 Canvas.textInputPosition (fst cfg) = None))
      by (split; intros _; assumption).
    clear D T. revert cfg I.
    induction F as [|[p ev] evs M F IH]; intros cfg I; [exact I|].
    unfold stepsUi. cbn [fold_left]. apply IH.
    cbn [fst] in M. subst mode. destruct I as [I1 I2].
    unfold stepUi, perform. cbn [fst snd].
    now apply one_event_keeps_modes_apart. }
  destruct G as [G1 G2]. split; [exact G1|]. split; [exact G2|].
  destruct mode; try (right; apply G2; discriminate).
  left. now apply G1.
Qed.

(** X10: a pointer event under a tool other than Text never touches the
    text state.  In particular a text region left open when the tool was
    switched stays pending, position and content, when the next gesture
    starts a drawing session. *)
Theorem other_tools_leave_text_state :
  forall (p : Canvas.Props) (s : Canvas.State) (ev : Canvas.Pointer),
    Canvas.drawMode p <> Canvas.text ->
    let s' := Canvas.update s (Canvas.handle p s ev) in
    Canvas.textInputPosition s' = Canvas.textInputPosition s /\
    Canvas.textInputValue s' = Canvas.textInputValue s /\
    (Canvas.ctx s = true -> Canvas.previewCtx s = true ->
     forall canvas e, ev = Canvas.PointerDown canvas e ->
       Canvas.isDrawing s' = true /\
       Canvas.startPos s' = Some (getCoordinates canvas e)).
Proof.
  intros p s ev N s'. subst s'.
  destruct s as [dr cx sp pc tv tp rg].
  destruct ev as [canvas e|canvas e|]; cbn [Canvas.handle].
  - unfold Canvas.startDrawing. cbn.
    destruct cx, pc; cbn;
      try (repeat split; intros; discriminate).
    destruct (Canvas.drawMode p); try (now contradiction N);
      destruct e; cbn;
      (split; [reflexivity|]; split; [reflexivity|];
       intros _ _ canvas' e' Q; inversion Q; split; reflexivity).
  - unfold Canvas.draw, Canvas.roughShape. cbn.
    destruct dr, cx, pc; cbn; try (repeat split; intros; discriminate).
    destruct sp; [|repeat split; intros; discriminate].
    destruct (Canvas.drawMode p); destruct (Canvas.enableRough p && rg);
      destruct e; cbn; repeat split; intros; discriminate.
  - unfold Canvas.stopDrawing. cbn.
    destruct dr, cx, pc; cbn; try (repeat split; intros; discriminate).
    destruct sp; [|repeat split; intros; discriminate].
    destruct (Canvas.drawMode p); cbn; repeat split; intros; discriminate.
Qed.

End Exclusive.

Section ColorInput.

Lemma hex_class_is_hex_digit :
  forall c,
    Regex.inClass true [("0", "9"); ("A", "F")]%char c = isHexDigit c.
Proof. intros [[] [] [] [] [] [] [] []]; reflexivity. Qed.

Lemma hash_literal :
  forall c,
    Ascii.eqb (Regex.canonical true c) (Regex.canonical true "#")
    = Ascii.eqb c "#".
Proof. intros [[] [] [] [] [] [] [] []]; reflexivity. Qed.

(** The rest after three hex digits, if [s] starts with three. *)
Lemma three_hex_digits :
  forall s,
    Regex.rests true
      (Regex.Times 3 0 (Regex.Ranges [("0", "9"); ("A", "F")]%char)) s
    = match s with
      | String a (String b (String c rest)) =>
          if isHexDigit a && isHexDigit b && isHexDigit c then [rest]
          else []
      | _ => []
      end.
Proof.
  intros s. cbn [Regex.rests].
  destruct s as [|a [|b [|c rest]]]; cbn [flat_map app];
    rewrite ?hex_class_is_hex_digit;
    repeat match goal with
           | |- context [isHexDigit ?x] =>
               destruct (isHexDigit x); cbn [flat_map app andb];
               rewrite ?hex_class_is_hex_digit
           end; reflexivity.
Qed.

Lemma rests_seq :
  forall i a b s,
    Regex.rests i (Regex.Seq a b) s
    = flat_map (Regex.rests i b) (Regex.rests i a s).
Proof. reflexivity. Qed.

Lemma rests_once_or_twice :
  forall i a s,
    Regex.rests i (Regex.Times 1 1 a) s
    = flat_map
        (fun s1 => flat_map (fun s2 => [s2]) (Regex.rests i a s1) ++ [s1])
        (Regex.rests i a s).
Proof. reflexivity. Qed.

Lemma rests_lit :
  forall i c h s,
    Regex.rests i (Regex.Lit c) (String h s)
    = if Ascii.eqb (Regex.canonical i h) (Regex.canonical i c) then [s]
      else [].
Proof. reflexivity. Qed.

Lemma hex_color_test :
  forall v, Regex.test true Toolbar.hexColor v = isHexColor v.
Proof.
  intros v. unfold Regex.test, Toolbar.hexColor.
  destruct v as [|h ds]; [reflexivity|].
  rewrite rests_seq, rests_lit, hash_literal. cbn [isHexColor].
  destruct (Ascii.eqb h "#"); [|reflexivity].
  cbn [flat_map andb]. rewrite app_nil_r.
  rewrite rests_once_or_twice, three_hex_digits.
  destruct ds as [|a [|b [|c r1]]]; try reflexivity.
  cbn [String.length allHex].
  destruct (isHexDigit a), (isHexDigit b), (isHexDigit c);
    cbn [andb flat_map app]; rewrite ?andb_false_r; try reflexivity.
  rewrite three_hex_digits.
  destruct r1 as [|d [|e [|f r2]]]; try reflexivity.
  cbn [String.length allHex].
  destruct (isHexDigit d), (isHexDigit e), (isHexDigit f);
    cbn [andb flat_map app existsb]; rewrite ?andb_false_r;
    try reflexivity.
  destruct r2; reflexivity.
Qed.

(** X12: the custom colour field always shows what was typed, and the
    stroke colour follows it exactly when the input is a hash sign
    followed by exactly three or exactly six hex digits, in either case;
    any other input (no hash, other lengths such as #RRGGBBAA, other
    characters, colour names) never changes the stroke colour. *)
Theorem custom_color_applies_iff_hex :
  forall v : string,
    Toolbar.validateAndSetColor v
    = SetCustomColor v :: (if isHexColor v then [SetColor v] else []) /\
    (In (SetColor v) (Toolbar.validateAndSetColor v) <->
     exists digits,
       v = String "#" digits /\
       (String.length digits = 3%nat \/ String.length digits = 6%nat) /\
       allHex digits = true) /\
    (forall c, In (SetColor c) (Toolbar.validateAndSetColor v) -> c = v).
Proof.
  intros v.
  assert (E : Toolbar.validateAndSetColor v
              = SetCustomColor v ::
                (if isHexColor v then [SetColor v] else [])).
  { unfold Toolbar.validateAndSetColor. now rewrite hex_color_test. }
  split; [exact E|]. rewrite E. split; [split|].
  - intros [H|H]; [discriminate|].
    destruct (isHexColor v) eqn:Q; [|contradiction].
    destruct v as [|h ds]; [discriminate|]. cbn in Q.
    apply andb_prop in Q. destruct Q as [Q A].
    apply andb_prop in Q. destruct Q as [Q L].
    apply Ascii.eqb_eq in Q. subst h. exists ds.
    split; [reflexivity|]. split; [|exact A].
    apply orb_prop in L. destruct L as [L|L]; apply Nat.eqb_eq in L; auto.
  - intros (ds & -> & L & A). right.
    assert (Q : isHexColor (String "#" ds) = true).
    { cbn. rewrite A, andb_true_r.
      destruct L as [-> | ->]; reflexivity. }
    rewrite Q. now left.
  - intros c [H|H]; [discriminate|].
    destruct (isHexColor v); [|contradiction].
    destruct H as [H|[]]. now inversion H.
Qed.

End ColorInput.

Section Shortcuts.

Ltac by_key k tac :=
  first
    [ match goal with
      | |- context [String.eqb k ?lit] =>
          let E := fresh "E" in
          destruct (String.eqb k lit) eqn:E;
          [ apply String.eqb_eq in E; subst k; cbn; tac
          | by_key k tac ]
      end
    | cbn; tac ].

(** X13: the two keydown listeners of the window never disagree on a tool.
    For one key press, whatever tool the toolbar's listener selects the
    page's listener selects too, both together never select two different
    tools, and neither does anything while the user types in an input or
    a textarea. *)
Theorem shortcut_listeners_agree_on_tool :
  forall (enableRough onDrawModeChange : bool) (e : KeyDown),
    (forall m,
        In (SetDrawMode m) (Toolbar.handleKeyDown onDrawModeChange e) ->
        In (SetDrawMode m) (HomeKeys.handleKeyDown enableRough e)) /\
    (forall m m',
        In (SetDrawMode m) (bothListeners enableRough e) ->
        In (SetDrawMode m') (bothListeners enableRough e) ->
        m = m') /\
    (targetIsField e = true ->
     bothListeners enableRough e = [] /\
     Toolbar.handleKeyDown onDrawModeChange e = []).
Proof.
  intros b h e. unfold bothListeners, Toolbar.handleKeyDown,
    HomeKeys.handleKeyDown.
  destruct (targetIsField e).
  - repeat split; intros; try contradiction.
  - remember (toLowerCase (key e)) as k eqn:K. clear K.
    split; [|split].
    + intros m.
      by_key k ltac:(destruct h; cbn; intros H;
                     repeat (destruct H as [H|H]; try discriminate H);
                     try contradiction; try (inversion H; subst; auto);
                     destruct (ctrlKey e); cbn in *;
                     repeat (destruct H as [H|H]; try discriminate H);
                     try contradiction).
    + intros m m'.
      by_key k ltac:(intros H H';
                     try (destruct (ctrlKey e); destruct (metaKey e));
                     cbn in *;
                     repeat (destruct H as [H|H]; try discriminate H);
                     try contradiction;
                     repeat (destruct H' as [H'|H']; try discriminate H');
                     try contradiction; congruence).
    + intros; discriminate.
Qed.

(** X14: how often one key press asks for a clear and for a save, counting
    both listeners.  Outside input fields, Delete alone asks for a clear
    once (the toolbar does not look at Ctrl), Ctrl+Delete twice,
    Ctrl+Backspace once, Backspace alone never; Ctrl+S asks for a save
    twice, Meta+S without Ctrl once; no other key asks for either, and
    inside an input or a textarea no key does. *)
Theorem shortcut_clear_and_save_requests :
  forall (enableRough : bool) (e : KeyDown),
    let k := toLowerCase (key e) in
    let toNat (b : bool) := if b then 1%nat else 0%nat in
    requestsClear (bothListeners enableRough e)
    = (if targetIsField e then 0
       else toNat (String.eqb k "delete") +
            toNat ((String.eqb k "delete" || String.eqb k "backspace")
                   && ctrlKey e))%nat /\
    requestsSave (bothListeners enableRough e)
    = (if targetIsField e then 0
       else toNat (String.eqb k "s" && ctrlKey e) +
            toNat (String.eqb k "s" && (ctrlKey e || metaKey e)))%nat.
Proof.
  intros b e k toNat. subst toNat.
  unfold bothListeners, Toolbar.handleKeyDown, HomeKeys.handleKeyDown.
  fold k. destruct (targetIsField e); [split; reflexivity|].
  clearbody k.
  split;
    by_key k ltac:(destruct (ctrlKey e); destruct (metaKey e); reflexivity).
Qed.

End Shortcuts.

Section TrimGuard.

Context {rz : Rasterizer}.

Lemma trimStart_empty :
  forall s, truthy (trimStart s) = existsb (fun c => negb (isWhiteSpace c)) s.
Proof.
  induction s as [|c s IH]; [reflexivity|].
  cbn [trimStart existsb]. destruct (isWhiteSpace c); [exact IH|reflexivity].
Qed.

Lemma truthy_rev : forall s : JSString, truthy (rev s) = truthy s.
Proof.
  intros [|c s]; [reflexivity|]. cbn [rev].
  destruct (rev s); reflexivity.
Qed.

Lemma existsb_rev :
  forall (f : N -> bool) s, existsb f (rev s) = existsb f s.
Proof.
  intros f s. induction s as [|c s IH]; [reflexivity|].
  cbn [rev existsb]. rewrite existsb_app, IH. cbn. rewrite orb_false_r.
  apply orb_comm.
Qed.

Lemma trimStart_keeps_ink :
  forall s,
    existsb (fun c => negb (isWhiteSpace c)) (trimStart s)
    = existsb (fun c => negb (isWhiteSpace c)) s.
Proof.
  induction s as [|c s IH]; [reflexivity|].
  cbn [trimStart]. destruct (isWhiteSpace c) eqn:W.
  - rewrite IH. cbn [existsb]. now rewrite W.
  - reflexivity.
Qed.

Lemma trim_truthy :
  forall s, truthy (trim s) = existsb (fun c => negb (isWhiteSpace c)) s.
Proof.
  intros s. unfold trim, trimEnd.
  now rewrite truthy_rev, trimStart_empty, existsb_rev, trimStart_keeps_ink.
Qed.

(** X15: with the main context available and a text region open, the text
    commit paints exactly when the content has a character that is not
    white space, and then it paints the content as typed, leading and
    trailing white space included, once; otherwise it performs nothing. *)
Theorem text_is_painted_iff_it_has_ink :
  forall (p : Canvas.Props) (s : Canvas.State) (pos : Point),
    Canvas.ctx s = true ->
    Canvas.textInputPosition s = Some pos ->
    let inked :=
      existsb (fun c => negb (isWhiteSpace c)) (Canvas.textInputValue s) in
    let painted :=
      filter (fun e => match e with Main (FillText _ _ _) => true
                                  | _ => false end)
        (Canvas.applyTextToCanvas p s) in
    painted
    = (if inked
       then [Main (FillText (Canvas.textInputValue s) (px pos) (py pos))]
       else []) /\
    (inked = false -> Canvas.applyTextToCanvas p s = []).
Proof.
  intros p s pos Hc Hp inked painted. subst painted.
  unfold Canvas.applyTextToCanvas. rewrite Hp, Hc, trim_truthy.
  fold inked. destruct inked; cbn; split; try reflexivity.
  intros; discriminate.
Qed.

End TrimGuard.

Section PreviewFrame.

Context {rz : Rasterizer}.

Lemma run_without_preview_calls :
  forall effs w,
    forallb (fun e => match e with Preview _ => false | _ => true end) effs
    = true ->
    preview (run effs w) = preview w.
Proof.
  induction effs as [|e effs IH]; intros w F; [reflexivity|].
  cbn in F. apply andb_prop in F. destruct F as [Fe F].
  unfold run. cbn [fold_left]. fold (run effs (exec_effect w e)).
  rewrite IH by exact F. destruct e; try discriminate Fe; reflexivity.
Qed.

Lemma pen_and_text_issue_no_preview_call :
  forall (p : Canvas.Props) (s : Canvas.State) (ev : UiEvent),
    usesPreview (Canvas.drawMode p) = false ->
    (Canvas.drawMode p = Canvas.text -> Canvas.isDrawing s = false) ->
    forallb (fun e => match e with Preview _ => false | _ => true end)
      (handleUi p s ev) = true.
Proof.
  intros p s ev M I.
  assert (T : forallb
                (fun e => match e with Preview _ => false | _ => true end)
                (Canvas.applyTextToCanvas p s) = true).
  { unfold Canvas.applyTextToCanvas.
    destruct (Canvas.textInputPosition s); [|reflexivity].
    destruct (negb (Canvas.ctx s) || _); reflexivity. }
  destruct ev as [[canvas e|canvas e|]|e| |v|img]; cbn [handleUi].
  - unfold Canvas.handle, Canvas.startDrawing.
    destruct (negb (Canvas.ctx s) || negb (Canvas.previewCtx s));
      [reflexivity|].
    rewrite forallb_app. apply andb_true_intro. split; [now destruct e|].
    destruct (Canvas.drawMode p); try discriminate M; [reflexivity|].
    rewrite forallb_app. apply andb_true_intro. split; [|reflexivity].
    destruct (Canvas.textInputPosition s); [apply T | reflexivity].
  - unfold Canvas.handle, Canvas.draw.
    destruct (Canvas.drawMode p) eqn:D; try discriminate M.
    + destruct (negb (Canvas.isDrawing s) || negb (Canvas.ctx s)
                || negb (Canvas.previewCtx s)); [reflexivity|].
      destruct (Canvas.startPos s); [|reflexivity].
      rewrite forallb_app. apply andb_true_intro.
      split; [now destruct e | reflexivity].
    + now rewrite (I eq_refl).
  - unfold Canvas.handle, Canvas.stopDrawing.
    destruct (Canvas.drawMode p) eqn:D; try discriminate M.
    + destruct (negb (Canvas.isDrawing s) || negb (Canvas.ctx s)
                || negb (Canvas.previewCtx s)); [reflexivity|].
      destruct (Canvas.startPos s); reflexivity.
    + now rewrite (I eq_refl).
  - unfold Canvas.handleTextInputKeyDown.
    destruct (String.eqb (Canvas.key e) "Enter" && negb (Canvas.shiftKey e)).
    + cbn. apply T.
    + destruct (String.eqb (Canvas.key e) "Escape"); reflexivity.
  - apply T.
  - reflexivity.
  - reflexivity.
Qed.

(** X16: the preview canvas belongs to the shape tools.  While every
    render keeps the width, height, colour and stroke width [p0] that the
    canvases were set up with (so that no canvas is reset and no style is
    copied to the contexts), and the tool stays the pen, in any state, or
    stays Text, from a state with no drawing session, no event of the
    component (pointer, textarea, callback of a paste) issues a call on
    the preview context, over any sequence: the preview canvas stays
    exactly as it was. *)
Theorem pen_and_text_never_touch_preview :
  forall (mode : Canvas.DrawMode) (p0 : Canvas.Props)
         (evs : list (Canvas.Props * UiEvent)) (cfg : Config),
    usesPreview mode = false ->
    Forall (fun pe => Canvas.drawMode (fst pe) = mode /\
                      sameSurface p0 (fst pe)) evs ->
    (mode = Canvas.text -> Canvas.isDrawing (fst cfg) = false) ->
    preview (snd (stepsUi evs cfg)) = preview (snd cfg).
Proof.
  intros mode p0 evs cfg U F. revert cfg.
  induction F as [|[p ev] evs [M _] F IH]; intros cfg I; [reflexivity|].
  cbn [fst] in M. subst mode.
  unfold stepsUi. cbn [fold_left]. fold (stepsUi evs (stepUi cfg (p, ev))).
  rewrite IH.
  - unfold stepUi, perform. cbn [fst snd].
    apply run_without_preview_calls.
    now apply pen_and_text_issue_no_preview_call.
  - intros T. unfold stepUi, perform. cbn [fst snd].
    apply (one_event_keeps_modes_apart p (fst cfg) ev); auto.
    intros N. now contradiction N.
Qed.

End PreviewFrame.
(** * The further properties at concrete inputs *)

Section MoreWitnesses.

Local Existing Instance dotRasterizer.

(** A pen stroke from (10, 10) over (30, 20) to (50, 50). *)
Lemma pen_gesture_strokes_as_it_goes_witness :
  Canvas.drawMode penProps = Canvas.pen /\
  preview (snd (steps penProps
                  (Canvas.PointerDown atOrigin (MouseEvent 10 10)
                   :: asMoves dragMoves)
                  (mountedState, freshWorld)))
  = preview freshWorld.
Proof.
  split; [reflexivity|].
  exact (proj1 (pen_gesture_strokes_as_it_goes penProps mountedState
                  freshWorld atOrigin (MouseEvent 10 10) dragMoves
                  eq_refl eq_refl eq_refl)).
Defined.

(** Escape in a region holding "Hi". *)
Lemma escape_discards_other_keys_pass_witness :
  String.eqb (Canvas.key escapeKey) "Enter"
  && negb (Canvas.shiftKey escapeKey) = false /\
  run (Canvas.handleTextInputKeyDown Canvas.defaultProps hiRegion escapeKey)
    inkedWorld
  = inkedWorld.
Proof.
  split; [reflexivity|].
  apply (escape_discards_other_keys_pass Canvas.defaultProps hiRegion
           inkedWorld escapeKey eq_refl).
Defined.

(** A coloured pixel under a pen stroke and the callback of a paste. *)
Lemma canvas_component_never_erases_witness :
  Forall (fun pe => sameSurface penProps (fst pe)) penStroke /\
  bitmap (main inkedWorld) 0%Z 0%Z <> None /\
  bitmap (main (snd (stepsUi penStroke (mountedState, inkedWorld))))
    0%Z 0%Z
  <> None.
Proof.
  assert (F : Forall (fun pe => sameSurface penProps (fst pe)) penStroke)
    by (repeat constructor).
  assert (H : bitmap (main inkedWorld) 0%Z 0%Z <> None)
    by (cbn; discriminate).
  split; [exact F|]. split; [exact H|].
  exact (canvas_component_never_erases penProps penStroke
           (mountedState, inkedWorld) 0%Z 0%Z F H).
Defined.

(** Typing "Hi" with the Text tool from the mounted state. *)
Lemma session_and_text_region_exclude_each_other_witness :
  Forall (fun pe => Canvas.drawMode (fst pe) = Canvas.text) typingHi /\
  Canvas.isDrawing
    (fst (stepsUi typingHi (mountedState, freshWorld))) = false.
Proof.
  assert (F : Forall (fun pe => Canvas.drawMode (fst pe) = Canvas.text)
                typingHi)
    by (repeat constructor).
  split; [exact F|].
  apply (session_and_text_region_exclude_each_other Canvas.text typingHi
           (mountedState, freshWorld) F eq_refl eq_refl).
  reflexivity.
Defined.

(** A rectangle drag started while "Hi" is still pending. *)
Lemma other_tools_leave_text_state_witness :
  Canvas.drawMode rectangleProps <> Canvas.text /\
  Canvas.textInputValue
    (Canvas.update hiRegion (Canvas.handle rectangleProps hiRegion dragDown))
  = Canvas.textInputValue hiRegion.
Proof.
  assert (N : Canvas.drawMode rectangleProps <> Canvas.text)
    by (cbn; discriminate).
  split; [exact N|].
  apply (other_tools_leave_text_state rectangleProps hiRegion dragDown N).
Defined.

(** Committing "Hi" typed at (10, 10). *)
Lemma text_is_painted_iff_it_has_ink_witness :
  Canvas.ctx hiRegion = true /\
  Canvas.textInputPosition hiRegion = Some (mkPoint 10 10) /\
  filter (fun e => match e with Main (FillText _ _ _) => true
                              | _ => false end)
    (Canvas.applyTextToCanvas Canvas.defaultProps hiRegion)
  = [Main (FillText [72; 105]%N 10 10)].
Proof.
  split; [reflexivity|]. split; [reflexivity|].
  apply (text_is_painted_iff_it_has_ink Canvas.defaultProps hiRegion
           (mkPoint 10 10) eq_refl eq_refl).
Defined.

(** The pen stroke and the callback of a paste leave the preview canvas
    alone. *)
Lemma pen_and_text_never_touch_preview_witness :
  usesPreview Canvas.pen = false /\
  Forall (fun pe => Canvas.drawMode (fst pe) = Canvas.pen /\
                    sameSurface penProps (fst pe)) penStroke /\
  preview (snd (stepsUi penStroke (mountedState, inkedWorld)))
  = preview inkedWorld.
Proof.
  assert (F : Forall (fun pe => Canvas.drawMode (fst pe) = Canvas.pen /\
                                sameSurface penProps (fst pe)) penStroke)
    by (repeat constructor).
  split; [reflexivity|]. split; [exact F|].
  apply (pen_and_text_never_touch_preview Canvas.pen penProps penStroke
           (mountedState, inkedWorld) eq_refl F).
  intros E. discriminate E.
Defined.

End MoreWitnesses.
